(** * FloatChat: the visualization selection and ranking engine

    A shallow embedding of [frontend/src/components/VisualizationPanel.jsx]:
    schema normalization of the incoming rows, the persona and intent driven
    chart generator [createVisualizations], the intent-aware filtering and
    ordering of the generated charts, and the time part of the KPI summary.
    Further on: the panel's data table and column switches, and the
    Dashboard's live float tracker.

    JavaScript values are modelled as follows.
    - A row is a plain object used as a map from column names to scalars:
      [gmap string value].  A missing key reads as [VUndef], as in JavaScript.
    - Numbers are IEEE 754 binary64 values ([float]).
    - Strings are byte strings ([string]), UTF-8 for the few characters of
      the chart titles outside ASCII; [toLowerCase], [\s], [\w] and the line
      terminators excluded by [.] are those of the ASCII range.
    - Built-ins whose result is host dependent or lengthy to specify (string to
      number conversion, number to string conversion, the parsing of date
      strings outside the ISO calendar-date form) are the fields of [Host]. *)

From Stdlib Require Import ZArith List String Ascii Bool Lia Permutation Sorted.
From Stdlib Require Import PrimFloat FloatOps SpecFloat Uint63.
From Stdlib Require DecimalString OrderedTypeEx.
From stdpp Require Import base gmap strings list.

Local Open Scope string_scope.
Local Open Scope list_scope.

(** ** JavaScript scalars *)

Inductive value : Type :=
  | VUndef
  | VNull
  | VNum (n : float)
  | VStr (s : string).

Abbreviation row := (gmap string value).

(** [r.k]: a missing property reads as [undefined]. *)
Definition get (r : row) (k : string) : value := default VUndef (r !! k).

(** [v === undefined], [v === null], [v == null]. *)
Definition is_undefined (v : value) : bool :=
  match v with VUndef => true | _ => false end.

Definition is_null (v : value) : bool :=
  match v with VNull => true | _ => false end.

Definition is_nullish (v : value) : bool := is_undefined v || is_null v.

(** [a ?? b] *)
Definition nullish (a b : value) : value := if is_nullish a then b else a.

Infix "??" := nullish (at level 45, left associativity).

(** ToBoolean *)
Definition truthy (v : value) : bool :=
  match v with
  | VUndef | VNull => false
  | VNum n => negb (PrimFloat.eqb n 0%float || PrimFloat.is_nan n)
  | VStr s => negb (String.eqb s "")
  end.

(** [a || b] *)
Definition js_or (a b : value) : value := if truthy a then a else b.

(** The host: built-ins taken as given. *)
Class Host : Type := {
  StringToNumber : string -> float;
  NumberToString : float -> string;
  (** [Date.parse] on the strings that are not an ISO calendar date; [None]
      stands for NaN. *)
  host_date_parse : string -> option Z
}.

Section Scalars.
Context `{Host}.

(** ToNumber *)
Definition ToNumber (v : value) : float :=
  match v with
  | VUndef => nan
  | VNull => 0%float
  | VNum n => n
  | VStr s => StringToNumber s
  end.

(** ToString *)
Definition ToString (v : value) : string :=
  match v with
  | VUndef => "undefined"
  | VNull => "null"
  | VNum n => NumberToString n
  | VStr s => s
  end.

(** [a + b]: concatenation as soon as one operand is a string. *)
Definition js_add (a b : value) : value :=
  match a, b with
  | VStr _, _ | _, VStr _ => VStr (ToString a ++ ToString b)
  | _, _ => VNum (PrimFloat.add (ToNumber a) (ToNumber b))
  end.

(** [a <= n] for a number [n]. *)
Definition js_le_num (a : value) (n : float) : bool :=
  PrimFloat.leb (ToNumber a) n.
End Scalars.

(** ** Schema normalization (lines 14-35) *)

Definition hasData (data : list row) : bool := (0 <? List.length data)%nat.

Definition normalize_row (r : row) : row :=
  let out := r in
  let out :=
    if is_undefined (get out "TEMP")
    then <["TEMP" := get out "temperature_c" ?? get out "temp"
                       ?? get out "temperature" ?? VNull]> out
    else out in
  let out :=
    if is_undefined (get out "PSAL")
    then <["PSAL" := get out "salinity_psu" ?? get out "psal"
                       ?? get out "salinity" ?? VNull]> out
    else out in
  let out :=
    if is_undefined (get out "PRES")
    then <["PRES" := get out "pressure_dbar" ?? get out "pres"
                       ?? get out "pressure" ?? VNull]> out
    else out in
  let out :=
    if is_undefined (get out "TIME")
    then <["TIME" := get out "juld" ?? get out "time" ?? VNull]> out
    else out in
  out.

Definition normalizedData (data : list row) : list row :=
  if hasData data then List.map normalize_row data else [].

Definition canonical (k : string) : bool :=
  String.eqb k "TEMP" || String.eqb k "PSAL"
  || String.eqb k "PRES" || String.eqb k "TIME".

(** The alias chain read for an absent canonical field. *)
Definition alias_value (r : row) (k : string) : value :=
  if String.eqb k "TEMP" then
    get r "temperature_c" ?? get r "temp" ?? get r "temperature" ?? VNull
  else if String.eqb k "PSAL" then
    get r "salinity_psu" ?? get r "psal" ?? get r "salinity" ?? VNull
  else if String.eqb k "PRES" then
    get r "pressure_dbar" ?? get r "pres" ?? get r "pressure" ?? VNull
  else
    get r "juld" ?? get r "time" ?? VNull.

(** ** Strings and the regular expressions of the intent classifier *)

Definition lower_ascii (c : ascii) : ascii :=
  let n := nat_of_ascii c in
  if ((65 <=? n) && (n <=? 90))%nat then ascii_of_nat (n + 32) else c.

(** [s.toLowerCase()] *)
Fixpoint toLowerCase (s : string) : string :=
  match s with
  | EmptyString => EmptyString
  | String c s' => String (lower_ascii c) (toLowerCase s')
  end.

(** Character classes: [.] (anything but a line terminator) and [\s]. *)
Inductive charclass : Type := CDot | CSpace.

Definition in_class (cl : charclass) (c : ascii) : bool :=
  let n := nat_of_ascii c in
  match cl with
  | CDot => negb ((n =? 10) || (n =? 13))%nat
  | CSpace => ((n =? 32) || ((9 <=? n) && (n <=? 13)))%nat
  end.

(** [\w] *)
Definition is_word (c : ascii) : bool :=
  let n := nat_of_ascii c in
  (((48 <=? n) && (n <=? 57)) || ((65 <=? n) && (n <=? 90))
   || ((97 <=? n) && (n <=? 122)) || (n =? 95))%nat.

(** The fragment of regular expressions the panel uses: literals,
    alternation, sequencing, a starred character class and [\b]. *)
Inductive regex : Type :=
  | Lit (l : string)
  | StarC (cl : charclass)
  | WordB
  | Seq (r1 r2 : regex)
  | Alt (r1 r2 : regex).

(** [strip l s]: the rest of [s] after the prefix [l], with the last
    character read. *)
Fixpoint strip (l s : string) (prev : option ascii)
  : option (option ascii * string) :=
  match l with
  | EmptyString => Some (prev, s)
  | String a l' =>
      match s with
      | EmptyString => None
      | String b s' =>
          if Ascii.eqb a b then strip l' s' (Some b) else None
      end
  end.

Definition word_at (o : option ascii) : bool :=
  match o with Some c => is_word c | None => false end.

Definition head_char (s : string) : option ascii :=
  match s with EmptyString => None | String c _ => Some c end.

(** Zero or more characters of the class, then the continuation: every
    split is tried. *)
Fixpoint star_then (cl : charclass) (k : option ascii -> string -> bool)
  (prev : option ascii) (s : string) : bool :=
  k prev s
  || match s with
     | EmptyString => false
     | String c s' => in_class cl c && star_then cl k (Some c) s'
     end.

(** Backtracking match of [r] at the head of [s]; [prev] is the character
    before the head and [k] consumes what follows the match. *)
Fixpoint match_here (r : regex) (k : option ascii -> string -> bool)
  (prev : option ascii) (s : string) : bool :=
  match r with
  | Lit l =>
      match strip l s prev with
      | Some (p, rest) => k p rest
      | None => false
      end
  | StarC cl => star_then cl k prev s
  | WordB => xorb (word_at prev) (word_at (head_char s)) && k prev s
  | Seq r1 r2 => match_here r1 (match_here r2 k) prev s
  | Alt r1 r2 => match_here r1 k prev s || match_here r2 k prev s
  end.

Fixpoint search (r : regex) (prev : option ascii) (s : string) : bool :=
  match_here r (fun _ _ => true) prev s
  || match s with
     | EmptyString => false
     | String c s' => search r (Some c) s'
     end.

(** [/r/.test(s)] *)
Definition test (r : regex) (s : string) : bool := search r None s.

(** [/(temp.*pres|profile|vs\s*pressure)/] *)
Definition re_wantsProfile : regex :=
  Alt (Seq (Lit "temp") (Seq (StarC CDot) (Lit "pres")))
      (Alt (Lit "profile") (Seq (Lit "vs") (Seq (StarC CSpace) (Lit "pressure")))).

(** [/(surface|0-10\s*dbar|shallow)/] *)
Definition re_wantsSurface : regex :=
  Alt (Lit "surface")
      (Alt (Seq (Lit "0-10") (Seq (StarC CSpace) (Lit "dbar"))) (Lit "shallow")).

(** [/(trend|time series|over time|monthly|daily)/] *)
Definition re_wantsTime : regex :=
  Alt (Lit "trend") (Alt (Lit "time series")
      (Alt (Lit "over time") (Alt (Lit "monthly") (Lit "daily")))).

(** [/(salinity|psal)/] *)
Definition re_wantsSalinity : regex := Alt (Lit "salinity") (Lit "psal").

(** [/(temperature|temp)/] *)
Definition re_wantsTemperature : regex := Alt (Lit "temperature") (Lit "temp").

(** [/(histogram|\bhist\b|bar\s*chart)/] *)
Definition re_wantsHistogram : regex :=
  Alt (Lit "histogram")
      (Alt (Seq WordB (Seq (Lit "hist") WordB))
           (Seq (Lit "bar") (Seq (StarC CSpace) (Lit "chart")))).

(** The patterns of the scoring pass (lines 482-486). *)
Definition re_pressure : regex := Lit "pressure".
Definition re_profile_q : regex :=
  Alt (Seq (Lit "temp") (Seq (StarC CDot) (Lit "pres"))) (Lit "profile").
Definition re_salinity : regex := Lit "salinity".
Definition re_temperature : regex := Lit "temperature".
Definition re_time : regex := Lit "time".
Definition re_surface_title : regex := Alt (Lit "surface") (Lit "distribution").
Definition re_surface_q : regex :=
  Alt (Lit "surface") (Seq (Lit "0-10") (Seq (StarC CSpace) (Lit "dbar"))).

(** ** Dates

    A [Date] is its time value: milliseconds since the epoch, [None] for an
    invalid date.  The calendar functions are those of ECMAScript (proleptic
    Gregorian calendar, UTC). *)

Local Open Scope Z_scope.

Definition msPerDay : Z := 86400000.

(** Days since 1970-01-01 of year [y], month [m] (1-12), day [d]. *)
Definition days_from_civil (y m d : Z) : Z :=
  let y := if m <=? 2 then y - 1 else y in
  let era := y / 400 in
  let yoe := y - era * 400 in
  let mp := if 2 <? m then m - 3 else m + 9 in
  let doy := (153 * mp + 2) / 5 + d - 1 in
  let doe := yoe * 365 + yoe / 4 - yoe / 100 + doy in
  era * 146097 + doe - 719468.

(** Year and month (1-12) of a day number. *)
Definition civil_from_days (z : Z) : Z * Z :=
  let z := z + 719468 in
  let era := z / 146097 in
  let doe := z - era * 146097 in
  let yoe := (doe - doe / 1460 + doe / 36524 - doe / 146096) / 365 in
  let doy := doe - (365 * yoe + yoe / 4 - yoe / 100) in
  let mp := (5 * doy + 2) / 153 in
  let m := if mp <? 10 then mp + 3 else mp - 9 in
  let y := yoe + era * 400 in
  (if m <=? 2 then y + 1 else y, m).

(** [dt.getUTCFullYear()] and [dt.getUTCMonth()] of a valid date. *)
Definition getUTCFullYear (t : Z) : Z := fst (civil_from_days (t / msPerDay)).
Definition getUTCMonth (t : Z) : Z := snd (civil_from_days (t / msPerDay)) - 1.

Definition leap_year (y : Z) : bool :=
  ((y mod 4 =? 0) && negb (y mod 100 =? 0)) || (y mod 400 =? 0).

Definition days_in_month (y m : Z) : Z :=
  if m =? 2 then (if leap_year y then 29 else 28)
  else if (m =? 4) || (m =? 6) || (m =? 9) || (m =? 11) then 30
  else 31.

Definition digit (c : ascii) : option Z :=
  let n := nat_of_ascii c in
  if ((48 <=? n) && (n <=? 57))%nat then Some (Z.of_nat (n - 48)) else None.

(** A run of decimal digits read as a number. *)
Fixpoint digits (s : string) (acc : Z) : option Z :=
  match s with
  | EmptyString => Some acc
  | String c s' =>
      match digit c with
      | Some d => digits s' (10 * acc + d)
      | None => None
      end
  end.

(** The ISO calendar date [YYYY-MM-DD], read as midnight UTC. *)
Definition iso_calendar_date (s : string) : option Z :=
  if (String.length s =? 10)%nat
     && String.eqb (substring 4 1 s) "-" && String.eqb (substring 7 1 s) "-"
  then
    match digits (substring 0 4 s) 0, digits (substring 5 2 s) 0,
          digits (substring 8 2 s) 0 with
    | Some y, Some m, Some d =>
        if (1 <=? m) && (m <=? 12) && (1 <=? d) && (d <=? days_in_month y m)
        then Some (days_from_civil y m d * msPerDay)
        else None
    | _, _, _ => None
    end
  else None.

(** TimeClip: the integer part of a number in the range of time values. *)
Definition TimeClip (n : float) : option Z :=
  match Prim2SF n with
  | S754_zero _ => Some 0
  | S754_finite sg m e =>
      let t := Z.shiftl (Zpos m) e in
      if t <=? 8640000000000000 then Some (if sg then - t else t) else None
  | _ => None
  end.

(** Decimal digits of an integer, as [String(n)] prints it. *)
Definition string_of_Z (z : Z) : string :=
  DecimalString.NilZero.string_of_int (Z.to_int z).

Fixpoint repeat_char (c : ascii) (n : nat) : string :=
  match n with
  | O => EmptyString
  | S n' => String c (repeat_char c n')
  end.

(** [s.padStart(n, c)] for a one character filler. *)
Definition padStart (n : nat) (c : ascii) (s : string) : string :=
  repeat_char c (n - String.length s) ++ s.

(** [`${dt.getUTCFullYear()}-${String(dt.getUTCMonth() + 1).padStart(2, '0')}`] *)
Definition month_key (t : Z) : string :=
  string_of_Z (getUTCFullYear t) ++ "-"
  ++ padStart 2 "0"%char (string_of_Z (getUTCMonth t + 1)).

Section Dates.
Context `{Host}.

(** [Date.parse(s)] *)
Definition Date_parse (s : string) : option Z :=
  match iso_calendar_date s with
  | Some t => Some t
  | None => host_date_parse s
  end.

(** [new Date(v).getTime()] *)
Definition newDate (v : value) : option Z :=
  match v with
  | VStr s => Date_parse s
  | _ => TimeClip (ToNumber v)
  end.
End Dates.

Local Close Scope Z_scope.

(** ** Sorting

    [Array.prototype.sort] is stable: [js_sort] is the stable insertion sort,
    with the comparator's sign read as JavaScript reads it. *)

Section Sort.
Context {A : Type} (cmp : A -> A -> Z).

Fixpoint sort_insert (x : A) (l : list A) : list A :=
  match l with
  | [] => [x]
  | y :: l' =>
      if (cmp x y <=? 0)%Z then x :: y :: l' else y :: sort_insert x l'
  end.

Fixpoint js_sort (l : list A) : list A :=
  match l with
  | [] => []
  | x :: l' => sort_insert x (js_sort l')
  end.
End Sort.

(** The default comparator on strings: code unit order. *)
Definition string_cmp (a b : string) : Z :=
  match String.compare a b with Lt => (-1)%Z | Eq => 0%Z | Gt => 1%Z end.

(** ** Chart specifications

    A chart is the object handed to the plotting component: [type], the
    traces of [data], and the [layout].  Colours, marker sizes and colour
    scales are rendering attributes that no rule reads back; they are left
    out of the traces. *)

Inductive plot_type : Type :=
  | scatter | histogram | bar | heatmap | box | histogram2dcontour.

Definition plot_type_eqb (a b : plot_type) : bool :=
  match a, b with
  | scatter, scatter | histogram, histogram | bar, bar
  | heatmap, heatmap | box, box
  | histogram2dcontour, histogram2dcontour => true
  | _, _ => false
  end.

(** An entry of a trace's [x], [y] or [z]: a scalar or a [Date]. *)
Inductive datum : Type :=
  | DVal (v : value)
  | DDate (t : option Z).

Record Trace : Type := {
  tr_x : list datum;
  tr_y : list datum;
  tr_z : list datum;
  tr_mode : string;
  tr_type : plot_type;
  tr_name : string
}.

Record Layout : Type := {
  lay_title : string;
  lay_xaxis : string;
  lay_yaxis : string;
  lay_reversed : bool;
  lay_height : Z
}.

Record ChartSpec : Type := {
  viz_type : plot_type;
  viz_data : list Trace;
  viz_layout : Layout
}.

(** [v.type === 'histogram' || (v.data && v.data[0]?.type === 'histogram')] *)
Definition isHistogram (v : ChartSpec) : bool :=
  plot_type_eqb (viz_type v) histogram
  || match viz_data v with
     | t :: _ => plot_type_eqb (tr_type t) histogram
     | [] => false
     end.

(** [l.length > n] *)
Definition longer_than (n : nat) {A : Type} (l : list A) : bool :=
  (n <? List.length l)%nat.

(** A [nat] (an array length) as a number. *)
Definition float_of_nat (n : nat) : float :=
  PrimFloat.of_uint63 (Uint63.of_Z (Z.of_nat n)).

(** [byMonth[k] = byMonth[k] || []; byMonth[k].push(v)] on an object whose
    keys are kept in insertion order. *)
Fixpoint push_month (k : string) (v : float) (m : list (string * list float))
  : list (string * list float) :=
  match m with
  | [] => [(k, [v])]
  | (k', l) :: m' =>
      if String.eqb k k' then (k', l ++ [v]) :: m'
      else (k', l) :: push_month k v m'
  end.

(** [byMonth[k]] *)
Fixpoint month_values (k : string) (m : list (string * list float))
  : list float :=
  match m with
  | [] => []
  | (k', l) :: m' => if String.eqb k k' then l else month_values k m'
  end.

Section Generator.
Context `{Host}.

Definition defined (k : string) (d : row) : bool :=
  negb (is_undefined (get d k)).

Definition nonnull (k : string) (d : row) : bool :=
  negb (is_null (get d k)).

(** [(d.PRES || 0) <= 10] *)
Definition near_surface (d : row) : bool :=
  js_le_num (js_or (get d "PRES") (VNum 0%float)) 10%float.

Definition column (k : string) (l : list row) : list datum :=
  List.map (fun d => DVal (get d k)) l.

Definition hasTemp (nd : list row) : bool :=
  existsb (fun d => defined "TEMP" d && defined "PRES" d) nd.

Definition hasSal (nd : list row) : bool :=
  existsb (fun d => defined "PSAL" d && defined "PRES" d) nd.

Definition hasTime (nd : list row) : bool :=
  existsb (fun d => defined "TIME" d) nd.

(** Lines 120-197. *)
Definition researcher_rules (hasTemp hasSal hasTime : bool) (nd : list row)
  : list ChartSpec :=
  (if hasTemp then
     let tempData :=
       List.filter (fun d => nonnull "TEMP" d && nonnull "PRES" d) nd in
     if longer_than 0 tempData then
       [ {| viz_type := scatter;
            viz_data := [ {| tr_x := column "TEMP" tempData;
                             tr_y := column "PRES" tempData;
                             tr_z := [];
                             tr_mode := "markers";
                             tr_type := scatter;
                             tr_name := "Temperature vs Pressure" |} ];
            viz_layout := {| lay_title := "Temperature vs Pressure Profile";
                             lay_xaxis := "Temperature (°C)";
                             lay_yaxis := "Pressure (dbar)";
                             lay_reversed := true;
                             lay_height := 400 |} |} ]
     else []
   else [])
  ++
  (if hasSal then
     let salData :=
       List.filter (fun d => nonnull "PSAL" d && nonnull "PRES" d) nd in
     if longer_than 0 salData then
       [ {| viz_type := scatter;
            viz_data := [ {| tr_x := column "PSAL" salData;
                             tr_y := column "PRES" salData;
                             tr_z := [];
                             tr_mode := "markers";
                             tr_type := scatter;
                             tr_name := "Salinity vs Pressure" |} ];
            viz_layout := {| lay_title := "Salinity vs Pressure Profile";
                             lay_xaxis := "Salinity (PSU)";
                             lay_yaxis := "Pressure (dbar)";
                             lay_reversed := true;
                             lay_height := 400 |} |} ]
     else []
   else [])
  ++
  (if hasTime then
     let timeData := List.filter (fun d => nonnull "TIME" d) nd in
     if longer_than 0 timeData then
       [ {| viz_type := scatter;
            viz_data :=
              [ {| tr_x := List.map (fun d => DDate (newDate (get d "TIME")))
                             timeData;
                   tr_y := List.map
                             (fun d => DVal (js_or (get d "TEMP") (VNum 0%float)))
                             timeData;
                   tr_z := [];
                   tr_mode := "lines+markers";
                   tr_type := scatter;
                   tr_name := "Temperature Over Time" |} ];
            viz_layout := {| lay_title := "Temperature Over Time";
                             lay_xaxis := "Time";
                             lay_yaxis := "Temperature (°C)";
                             lay_reversed := false;
                             lay_height := 400 |} |} ]
     else []
   else []).

(** Lines 200-241. *)
Definition fisherman_rules (hasTemp hasSal : bool) (nd : list row)
  : list ChartSpec :=
  (if hasTemp then
     let surface :=
       List.filter (fun d => near_surface d && nonnull "TEMP" d) nd in
     if longer_than 0 surface then
       [ {| viz_type := histogram;
            viz_data := [ {| tr_x := column "TEMP" surface;
                             tr_y := [];
                             tr_z := [];
                             tr_mode := "";
                             tr_type := histogram;
                             tr_name := "Surface Temperature Distribution" |} ];
            viz_layout :=
              {| lay_title := "Surface Temperature Distribution (0-10 dbar)";
                 lay_xaxis := "Temperature (°C)";
                 lay_yaxis := "Count";
                 lay_reversed := false;
                 lay_height := 350 |} |} ]
     else []
   else [])
  ++
  (if hasSal then
     let surfaceS :=
       List.filter (fun d => near_surface d && nonnull "PSAL" d) nd in
     if longer_than 0 surfaceS then
       [ {| viz_type := histogram;
            viz_data := [ {| tr_x := column "PSAL" surfaceS;
                             tr_y := [];
                             tr_z := [];
                             tr_mode := "";
                             tr_type := histogram;
                             tr_name := "Surface Salinity Distribution" |} ];
            viz_layout :=
              {| lay_title := "Surface Salinity Distribution (0-10 dbar)";
                 lay_xaxis := "Salinity (PSU)";
                 lay_yaxis := "Count";
                 lay_reversed := false;
                 lay_height := 350 |} |} ]
     else []
   else []).

(** [reduce((s, d) => s + (d[k] || 0), 0) / Math.max(1, n)] where [n]
    counts the rows whose [k] is neither null nor undefined. *)
Definition average (k : string) (nd : list row) : float :=
  let total :=
    fold_left (fun s d => js_add s (js_or (get d k) (VNum 0%float)))
              nd (VNum 0%float) in
  let n :=
    List.length (List.filter (fun d => nonnull k d && defined k d) nd) in
  PrimFloat.div (ToNumber total) (float_of_nat (Nat.max 1 n)).

(** [Number.isFinite(v) ? v : 0] *)
Definition finite_or_zero (v : float) : float :=
  if PrimFloat.is_finite v then v else 0%float.

(** Lines 244-262. *)
Definition policymaker_rules (nd : list row) : list ChartSpec :=
  let numRecords := List.length nd in
  let avgTemp := average "TEMP" nd in
  let avgSal := average "PSAL" nd in
  [ {| viz_type := bar;
       viz_data :=
         [ {| tr_x := [DVal (VStr "Records"); DVal (VStr "Avg Temp");
                       DVal (VStr "Avg Salinity")];
              tr_y := [DVal (VNum (float_of_nat numRecords));
                       DVal (VNum (finite_or_zero avgTemp));
                       DVal (VNum (finite_or_zero avgSal))];
              tr_z := [];
              tr_mode := "";
              tr_type := bar;
              tr_name := "" |} ];
       viz_layout := {| lay_title := "Summary Indicators";
                        lay_xaxis := "";
                        lay_yaxis := "Value";
                        lay_reversed := false;
                        lay_height := 350 |} |} ].

(** Lines 265-305. *)
Definition student_rules (hasTemp hasSal : bool) (nd : list row)
  : list ChartSpec :=
  let traces :=
    (if hasTemp then
       let tempData :=
         List.filter (fun d => nonnull "TEMP" d && nonnull "PRES" d) nd in
       if longer_than 0 tempData then
         [ {| tr_x := column "TEMP" tempData;
              tr_y := column "PRES" tempData;
              tr_z := [];
              tr_mode := "markers";
              tr_type := scatter;
              tr_name := "Temperature" |} ]
       else []
     else [])
    ++
    (if hasSal then
       let salData :=
         List.filter (fun d => nonnull "PSAL" d && nonnull "PRES" d) nd in
       if longer_than 0 salData then
         [ {| tr_x := column "PSAL" salData;
              tr_y := column "PRES" salData;
              tr_z := [];
              tr_mode := "markers";
              tr_type := scatter;
              tr_name := "Salinity" |} ]
       else []
     else []) in
  if longer_than 0 traces then
    [ {| viz_type := scatter;
         viz_data := traces;
         viz_layout := {| lay_title := "Profiles Overview";
                          lay_xaxis := "Value";
                          lay_yaxis := "Pressure (dbar)";
                          lay_reversed := true;
                          lay_height := 400 |} |} ]
  else [].

(** The four persona blocks; each runs only for its own persona. *)
Definition persona_rules (prof : string) (hasTemp hasSal hasTime : bool)
  (nd : list row) : list ChartSpec :=
  (if String.eqb prof "researcher"
   then researcher_rules hasTemp hasSal hasTime nd else [])
  ++ (if String.eqb prof "fisherman"
      then fisherman_rules hasTemp hasSal nd else [])
  ++ (if String.eqb prof "policymaker" then policymaker_rules nd else [])
  ++ (if String.eqb prof "student"
      then student_rules hasTemp hasSal nd else []).

(** The histograms built on request (lines 309-353). *)
Definition histVisuals (hasTemp hasSal : bool) (nd : list row)
  : list ChartSpec :=
  (if hasTemp then
     let tempSurface :=
       List.filter (fun d => near_surface d && nonnull "TEMP" d) nd in
     let tempAll := List.filter (fun d => nonnull "TEMP" d) nd in
     let source := if longer_than 10 tempSurface then tempSurface else tempAll in
     if longer_than 0 source then
       [ {| viz_type := histogram;
            viz_data := [ {| tr_x := column "TEMP" source;
                             tr_y := [];
                             tr_z := [];
                             tr_mode := "";
                             tr_type := histogram;
                             tr_name := "Temperature" |} ];
            viz_layout :=
              {| lay_title :=
                   if longer_than 10 tempSurface
                   then "Surface Temperature Distribution (0-10 dbar)"
                   else "Temperature Distribution";
                 lay_xaxis := "Temperature (°C)";
                 lay_yaxis := "Count";
                 lay_reversed := false;
                 lay_height := 350 |} |} ]
     else []
   else [])
  ++
  (if hasSal then
     let salSurface :=
       List.filter (fun d => near_surface d && nonnull "PSAL" d) nd in
     let salAll := List.filter (fun d => nonnull "PSAL" d) nd in
     let source := if longer_than 10 salSurface then salSurface else salAll in
     if longer_than 0 source then
       [ {| viz_type := histogram;
            viz_data := [ {| tr_x := column "PSAL" source;
                             tr_y := [];
                             tr_z := [];
                             tr_mode := "";
                             tr_type := histogram;
                             tr_name := "Salinity" |} ];
            viz_layout :=
              {| lay_title :=
                   if longer_than 10 salSurface
                   then "Surface Salinity Distribution (0-10 dbar)"
                   else "Salinity Distribution";
                 lay_xaxis := "Salinity (PSU)";
                 lay_yaxis := "Count";
                 lay_reversed := false;
                 lay_height := 350 |} |} ]
     else []
   else []).

(** Lines 308-359: the requested histograms go to the front, one
    [unshift] at a time, unless a histogram is already there. *)
Definition histogram_override (wantsHistogram hasTemp hasSal : bool)
  (nd : list row) (visualizations : list ChartSpec) : list ChartSpec :=
  if wantsHistogram then
    let hv := histVisuals hasTemp hasSal nd in
    let hasAnyHistogram := existsb isHistogram visualizations in
    if negb hasAnyHistogram && longer_than 0 hv
    then fold_left (fun vis h => h :: vis) hv visualizations
    else visualizations
  else visualizations.

(** Lines 362-383. *)
Definition ts_rule (hasTemp hasSal : bool) (nd : list row) : list ChartSpec :=
  if hasTemp && hasSal then
    let tsData :=
      List.filter (fun d => nonnull "TEMP" d && nonnull "PSAL" d) nd in
    if longer_than 20 tsData then
      [ {| viz_type := scatter;
           viz_data := [ {| tr_x := column "PSAL" tsData;
                            tr_y := column "TEMP" tsData;
                            tr_z := [];
                            tr_mode := "markers";
                            tr_type := scatter;
                            tr_name := "T-S Diagram" |} ];
           viz_layout :=
             {| lay_title := "Temperature–Salinity (T–S) Diagram";
                lay_xaxis := "Salinity (PSU)";
                lay_yaxis := "Temperature (°C)";
                lay_reversed := false;
                lay_height := 400 |} |} ]
    else []
  else [].

(** Lines 386-413. *)
Definition heatmap_rule (hasTemp hasTime : bool) (nd : list row)
  : list ChartSpec :=
  if hasTemp && hasTime then
    let td :=
      firstn 5000
        (List.filter
           (fun d => nonnull "TIME" d && nonnull "PRES" d && nonnull "TEMP" d)
           nd) in
    if longer_than 20 td then
      [ {| viz_type := heatmap;
           viz_data :=
             [ {| tr_x := List.map (fun d => DDate (newDate (get d "TIME"))) td;
                  tr_y := column "PRES" td;
                  tr_z := column "TEMP" td;
                  tr_mode := "";
                  tr_type := histogram2dcontour;
                  tr_name := "Time-Depth TEMP" |} ];
           viz_layout := {| lay_title := "Time–Depth Heatmap (Temperature)";
                            lay_xaxis := "Time";
                            lay_yaxis := "Pressure (dbar)";
                            lay_reversed := true;
                            lay_height := 420 |} |} ]
    else []
  else [].

(** The month of a row that enters the box plot (lines 419-422): its
    [TIME] is truthy and parses, its [TEMP] is neither null nor undefined. *)
Definition row_month (d : row) : option string :=
  if truthy (get d "TIME") && negb (is_nullish (get d "TEMP")) then
    match newDate (get d "TIME") with
    | Some t => Some (month_key t)
    | None => None
    end
  else None.

(** Lines 417-427: the [forEach] that fills [byMonth]. *)
Definition byMonth (nd : list row) : list (string * list float) :=
  fold_left
    (fun m d =>
       match row_month d with
       | Some k => push_month k (ToNumber (get d "TEMP")) m
       | None => m
       end)
    nd [].

(** [Object.keys(byMonth).sort()] *)
Definition month_labels (nd : list row) : list string :=
  js_sort string_cmp (List.map fst (byMonth nd)).

Definition box_trace (m : list (string * list float)) (lab : string) : Trace :=
  {| tr_x := [];
     tr_y := List.map (fun v => DVal (VNum v)) (month_values lab m);
     tr_z := [];
     tr_mode := "";
     tr_type := box;
     tr_name := lab |}.

(** Lines 416-447. *)
Definition box_rule (hasTemp hasTime : bool) (nd : list row)
  : list ChartSpec :=
  if hasTemp && hasTime then
    let labels := month_labels nd in
    if (2 <=? List.length labels)%nat then
      [ {| viz_type := box;
           viz_data := List.map (box_trace (byMonth nd)) labels;
           viz_layout := {| lay_title := "Monthly Temperature Distribution";
                            lay_xaxis := "";
                            lay_yaxis := "Temperature (°C)";
                            lay_reversed := false;
                            lay_height := 420 |} |} ]
    else []
  else [].

(** [profession || 'Researcher'] *)
Definition profession_or_default (profession : string) : string :=
  if String.eqb profession "" then "Researcher" else profession.

(** The body of [createVisualizations] once the three availability flags
    are known. *)
Definition visualization_rules (hasTemp hasSal hasTime : bool)
  (nd : list row) (prof q : string) : list ChartSpec :=
  let wantsHistogram := test re_wantsHistogram q in
  let visualizations := persona_rules prof hasTemp hasSal hasTime nd in
  let visualizations :=
    histogram_override wantsHistogram hasTemp hasSal nd visualizations in
  visualizations ++ ts_rule hasTemp hasSal nd
    ++ heatmap_rule hasTemp hasTime nd ++ box_rule hasTemp hasTime nd.

(** [createVisualizations] (lines 102-450), over the normalized rows. *)
Definition createVisualizations_on (nd : list row)
  (profession intent : string) : list ChartSpec :=
  let prof := toLowerCase (profession_or_default profession) in
  let q := toLowerCase intent in
  visualization_rules (hasTemp nd) (hasSal nd) (hasTime nd) nd prof q.

(** Line 452: [hasData ? createVisualizations() : []]. *)
Definition createVisualizations (data : list row)
  (profession intent : string) : list ChartSpec :=
  if hasData data
  then createVisualizations_on (normalizedData data) profession intent
  else [].
End Generator.

(** ** Intent-aware ordering and filtering (lines 468-492) *)

Record Priority : Type := { pr_idx : nat; pr_score : Z }.

(** The score of one chart (lines 480-487); [q] is the lower-cased intent. *)
Definition score (viz : ChartSpec) (q : string) : Z :=
  let title := toLowerCase (lay_title (viz_layout viz)) in
  let score := 0%Z in
  let score :=
    if test re_pressure title || test re_profile_q q
    then (score + 3)%Z else score in
  let score :=
    if test re_salinity title && test re_wantsSalinity q
    then (score + 2)%Z else score in
  let score :=
    if test re_temperature title && test re_wantsTemperature q
    then (score + 2)%Z else score in
  let score :=
    if test re_time title && test re_wantsTime q
    then (score + 3)%Z else score in
  let score :=
    if test re_surface_title title && test re_surface_q q
    then (score + 2)%Z else score in
  score.

(** Lines 472-478: only the histograms are kept when one was asked for and
    there is one. *)
Definition histogram_filter (visualizations : list ChartSpec) (q : string)
  : list ChartSpec :=
  if test re_wantsHistogram q then
    let onlyHists := List.filter isHistogram visualizations in
    if longer_than 0 onlyHists then onlyHists else visualizations
  else visualizations.

(** Lines 479-490: the scored indices, sorted by decreasing score. *)
Definition priority (visualizations : list ChartSpec) (q : string)
  : list Priority :=
  js_sort (fun a b => (pr_score b - pr_score a)%Z)
    (imap (fun idx viz => {| pr_idx := idx; pr_score := score viz q |})
       visualizations).

(** Lines 469-492.  Line 491 reads [visualizations[p.idx]]; every [idx] is a
    position of the list, so each lookup yields a chart. *)
Definition rank (visualizations : list ChartSpec) (intent : string)
  : list ChartSpec :=
  if longer_than 0 visualizations && negb (String.eqb intent "") then
    let q := toLowerCase intent in
    let visualizations := histogram_filter visualizations q in
    omap (fun p => visualizations !! pr_idx p) (priority visualizations q)
  else visualizations.

(** ** KPI summary (lines 455-466) *)

Record KPISummary : Type := {
  numRecords : nat;
  avgTemp : option float;
  avgSal : option float;
  (** [None] is [null]; a date is its time value. *)
  minTime : option (option Z);
  maxTime : option (option Z)
}.

(** [Boolean(v)] for [v] null ([None]), NaN ([Some None]) or a number. *)
Definition Boolean (v : option (option Z)) : bool :=
  match v with
  | Some (Some t) => negb (t =? 0)%Z
  | _ => false
  end.

(** The arguments of [Math.min] and [Math.max] as numbers: null is 0. *)
Definition time_number (v : option (option Z)) : option Z :=
  match v with
  | None => Some 0%Z
  | Some n => n
  end.

(** [Math.min] and [Math.max] of at least one number; NaN is contagious. *)
Definition Math_fold (f : Z -> Z -> Z) (v : option (option Z))
  (l : list (option (option Z))) : option Z :=
  fold_left
    (fun acc x =>
       match acc, time_number x with
       | Some a, Some b => Some (f a b)
       | _, _ => None
       end)
    l (time_number v).

(** [new Date(n)] for an integral number [n]. *)
Definition date_of_number (n : option Z) : option Z :=
  match n with
  | Some t => if (Z.abs t <=? 8640000000000000)%Z then Some t else None
  | None => None
  end.

Section KPI.
Context `{Host}.

(** [v !== null && v !== undefined && !Number.isNaN(v)] *)
Definition valid_number (v : value) : bool :=
  negb (is_null v) && negb (is_undefined v)
  && negb (match v with VNum n => PrimFloat.is_nan n | _ => false end).

(** [l.length ? l.reduce((a, b) => a + Number(b), 0) / l.length : null] *)
Definition mean (l : list value) : option float :=
  if longer_than 0 l then
    Some (PrimFloat.div
            (fold_left (fun a b => PrimFloat.add a (ToNumber b)) l 0%float)
            (float_of_nat (List.length l)))
  else None.

(** [d.TIME ? new Date(d.TIME).getTime() : null] *)
Definition time_or_null (d : row) : option (option Z) :=
  if truthy (get d "TIME") then Some (newDate (get d "TIME")) else None.

(** Line 462. *)
Definition times (nd : list row) : list (option (option Z)) :=
  List.filter Boolean (List.map time_or_null nd).

Definition kpis (data : list row) : option KPISummary :=
  if negb (hasData data) then None
  else
    let nd := normalizedData data in
    let validTemps :=
      List.filter valid_number (List.map (fun d => get d "TEMP") nd) in
    let validSal :=
      List.filter valid_number (List.map (fun d => get d "PSAL") nd) in
    let times := times nd in
    Some {| numRecords := List.length data;
            avgTemp := mean validTemps;
            avgSal := mean validSal;
            minTime :=
              match times with
              | v :: l => Some (date_of_number (Math_fold Z.min v l))
              | [] => None
              end;
            maxTime :=
              match times with
              | v :: l => Some (date_of_number (Math_fold Z.max v l))
              | [] => None
              end |}.

(** The panel's chart list: generation, then ranking. *)
Definition ranked (data : list row) (profession intent : string)
  : list ChartSpec :=
  rank (createVisualizations data profession intent) intent.
End KPI.

(** ** Vocabulary of the properties *)

(** The chart titled as the T-S diagram, the box plot, and a chart of kind
    histogram. *)
Definition is_ts (v : ChartSpec) : bool :=
  String.eqb (lay_title (viz_layout v)) "Temperature–Salinity (T–S) Diagram".

Definition is_box (v : ChartSpec) : bool := plot_type_eqb (viz_type v) box.

Definition kind_histogram (v : ChartSpec) : bool :=
  plot_type_eqb (viz_type v) histogram.

(** The personas that have a rule block, as the generator compares them. *)
Definition recognized (prof : string) : bool :=
  String.eqb prof "researcher" || String.eqb prof "fisherman"
  || String.eqb prof "policymaker" || String.eqb prof "student".

(** The rows the T-S rule plots. *)
Definition tsData (data : list row) : list row :=
  List.filter (fun d => negb (is_null (get d "TEMP")) && negb (is_null (get d "PSAL")))
    (normalizedData data).

(** A host for the worked examples: their rows hold numbers and ISO dates
    only, so none of its three functions is consulted. *)
Definition plain_host : Host :=
  {| StringToNumber := fun _ => nan;
     NumberToString := fun _ => "";
     host_date_parse := fun _ => None |}.

(** A row with a temperature and a pressure, under source column names. *)
Definition profile_row : row :=
  <["temperature_c" := VNum 12.5%float]> (<["pressure_dbar" := VNum 5%float]> ∅).

(** The list the ranking pass orders: the generated charts, narrowed to the
    histograms when the pass runs and line 475 finds one. *)
Definition ranking_input (visualizations : list ChartSpec) (intent : string)
  : list ChartSpec :=
  if longer_than 0 visualizations && negb (String.eqb intent "")
  then histogram_filter visualizations (toLowerCase intent)
  else visualizations.

(** [scored s q v]: chart [v] has score [s] under the lower-cased intent [q]. *)
Definition scored (s : Z) (q : string) (v : ChartSpec) : bool :=
  (score v q =? s)%Z.

(** [before a b l]: an occurrence of [a] in [l] precedes one of [b]. *)
Definition before {A : Type} (a b : A) (l : list A) : Prop :=
  ∃ l1 l2 l3 : list A, l = l1 ++ a :: l2 ++ b :: l3.

(** A scored index stands for the chart at that index of the list. *)
Definition scored_index (visualizations : list ChartSpec) (q : string)
  (p : Priority) (v : ChartSpec) : Prop :=
  visualizations !! pr_idx p = Some v ∧ pr_score p = score v q.

(** [in_month k d]: row [d] enters the box plot under the month [k]. *)
Definition in_month `{Host} (k : string) (d : row) : bool :=
  match row_month d with
  | Some k' => String.eqb k k'
  | None => false
  end.

(** The box plot of the months [labels] of the groups [m] (lines 436-445). *)
Definition box_chart (m : list (string * list float)) (labels : list string)
  : ChartSpec :=
  {| viz_type := box;
     viz_data :=
       List.map
         (fun lab =>
            {| tr_x := [];
               tr_y := List.map (fun v => DVal (VNum v)) (month_values lab m);
               tr_z := [];
               tr_mode := "";
               tr_type := box;
               tr_name := lab |})
         labels;
     viz_layout := {| lay_title := "Monthly Temperature Distribution";
                      lay_xaxis := "";
                      lay_yaxis := "Temperature (°C)";
                      lay_reversed := false;
                      lay_height := 420 |} |}.

(** The score as the specification words it: every term, the pressure term
    included, needs both its title pattern and its intent flag. *)
Definition score_spec (viz : ChartSpec) (q : string) : Z :=
  let title := toLowerCase (lay_title (viz_layout viz)) in
  ((if test re_pressure title && test re_wantsProfile q then 3 else 0)
   + (if test re_salinity title && test re_wantsSalinity q then 2 else 0)
   + (if test re_temperature title && test re_wantsTemperature q then 2 else 0)
   + (if test re_time title && test re_wantsTime q then 3 else 0)
   + (if test re_surface_title title && test re_wantsSurface q then 2 else 0))%Z.

(** The time span as the specification words it: every non-null TIME is
    parsed, the unparsable ones are dropped, and the extremes of the rest
    are returned, or nothing when none is left. *)
Definition timeSpan_spec `{Host} (nd : list row) : option (Z * Z) :=
  let parsed :=
    omap (fun d => if is_null (get d "TIME") then None
                   else newDate (get d "TIME")) nd in
  match parsed with
  | t :: l => Some (fold_left Z.min l t, fold_left Z.max l t)
  | [] => None
  end.

(** Rows for the worked examples. *)
Definition measured_row (time : string) (temp : float) : row :=
  <["TIME" := VStr time]>
    (<["TEMP" := VNum temp]>
       (<["PSAL" := VNum 35%float]> (<["PRES" := VNum 100%float]> ∅))).

Definition january_rows : list row :=
  [measured_row "2023-01-05" 10%float; measured_row "2023-01-20" 12%float].

Definition epoch_rows : list row :=
  [measured_row "1970-01-01" 10%float; measured_row "2023-01-05" 12%float].

Definition titles (l : list ChartSpec) : list string :=
  List.map (fun v => lay_title (viz_layout v)) l.

Definition winter_rows : list row :=
  [measured_row "2023-02-11" 9%float; measured_row "2023-01-05" 10%float;
   measured_row "2023-01-20" 12%float].

(** ** Vocabulary of the further properties *)

Definition is_bar (v : ChartSpec) : bool := plot_type_eqb (viz_type v) bar.

Definition is_heatmap (v : ChartSpec) : bool := plot_type_eqb (viz_type v) heatmap.

(** A trace whose points are pairs (triples for the density contour) has
    coordinate lists of one length; a histogram has only [x], a box only
    [y]. *)
Definition aligned (t : Trace) : bool :=
  match tr_type t with
  | histogram | box => true
  | histogram2dcontour =>
      (List.length (tr_x t) =? List.length (tr_y t))%nat
      && (List.length (tr_x t) =? List.length (tr_z t))%nat
  | _ => (List.length (tr_x t) =? List.length (tr_y t))%nat
  end.

Definition finite_datum (d : datum) : bool :=
  match d with
  | DVal (VNum n) => PrimFloat.is_finite n
  | _ => false
  end.

(** The alias columns of a canonical field, in the order lines 19-31 read
    them. *)
Definition aliases (k : string) : list string :=
  if String.eqb k "TEMP" then ["temperature_c"; "temp"; "temperature"]
  else if String.eqb k "PSAL" then ["salinity_psu"; "psal"; "salinity"]
  else if String.eqb k "PRES" then ["pressure_dbar"; "pres"; "pressure"]
  else ["juld"; "time"].

(** The first of the columns [l] that row [r] sets to something other than
    null or undefined; null when there is none. *)
Fixpoint first_set (r : row) (l : list string) : value :=
  match l with
  | [] => VNull
  | a :: l' => if is_nullish (get r a) then first_set r l' else get r a
  end.

(** ** The data table (lines 580-593) and the column switches (line 635) *)

(** [hay.includes(needle)] *)
Fixpoint includes (hay needle : string) : bool :=
  String.prefix needle hay
  || match hay with
     | EmptyString => false
     | String _ hay' => includes hay' needle
     end.

Section Table.
Context `{Host}.

(** [String(row[k] ?? '')] *)
Definition cell_text (r : row) (k : string) : string :=
  ToString (get r k ?? VStr "").

(** [visibleColumns.map(k => String(row[k] ?? '')).join(' ').toLowerCase()] *)
Definition row_text (visibleColumns : list string) (r : row) : string :=
  toLowerCase (String.concat " " (List.map (cell_text r) visibleColumns)).

(** The predicate of the table's [filter] (lines 581-585). *)
Definition row_shown (visibleColumns : list string) (filterText : string)
  (r : row) : bool :=
  if String.eqb filterText "" then true
  else includes (row_text visibleColumns r) (toLowerCase filterText).

(** The rows the table renders: [data.filter(...).slice(0, 100)]. *)
Definition table_rows (visibleColumns : list string) (filterText : string)
  (data : list row) : list row :=
  firstn 100 (List.filter (row_shown visibleColumns filterText) data).
End Table.

(** The update of line 635:
    [prev => checked ? [...prev, col] : prev.filter(c => c !== col)]. *)
Definition toggleColumn (checked : bool) (col : string) (prev : list string)
  : list string :=
  if checked then prev ++ [col]
  else List.filter (fun c => negb (String.eqb c col)) prev.

(** ** The live float tracker (Dashboard, [fetchLatestFloats]) *)

Record Message : Type := { msg_role : string; msg_content : string }.

(** What a poll reads and writes: the [lastCycles] map of the effect, the
    chat messages, and the floats shown on the map. *)
Record Tracker : Type := {
  lastCycles : gmap string value;
  messages : list Message;
  liveFloats : list row
}.

(** [a === b] on scalars. *)
Definition strict_eq (a b : value) : bool :=
  match a, b with
  | VUndef, VUndef | VNull, VNull => true
  | VNum x, VNum y => PrimFloat.eqb x y
  | VStr x, VStr y => String.eqb x y
  | _, _ => false
  end.

Section LiveTracker.
Context `{Host}.

(** [String(r.platform_number)] *)
Definition float_key (r : row) : string := ToString (get r "platform_number").

(** The body of [rows.forEach]: a float seen for the first time is
    recorded; a float whose cycle changed is recorded and announced. *)
Definition track (st : Tracker) (r : row) : Tracker :=
  let key := float_key r in
  let prev := get (lastCycles st) key in
  if is_undefined prev then
    {| lastCycles := <[key := get r "cycle_number"]> (lastCycles st);
       messages := messages st;
       liveFloats := liveFloats st |}
  else if negb (strict_eq (get r "cycle_number") prev) then
    {| lastCycles := <[key := get r "cycle_number"]> (lastCycles st);
       messages :=
         messages st
         ++ [ {| msg_role := "assistant";
                 msg_content :=
                   "Live update: Float " ++ key ++ " reached cycle "
                   ++ ToString (get r "cycle_number") ++ "." |} ];
       liveFloats := liveFloats st |}
  else st.

(** A row is settled in a tracker state when the state already holds its
    cycle and the cycle equals itself (it is not NaN). *)
Definition settled (st : Tracker) (r : row) : Prop :=
  (get (lastCycles st) (float_key r) = get r "cycle_number"
   ∨ strict_eq (get r "cycle_number") (get (lastCycles st) (float_key r)) = true)
  ∧ strict_eq (get r "cycle_number") (get r "cycle_number") = true.

(** One poll over the rows the query returned. *)
Definition fetchLatestFloats (rows : list row) (st : Tracker) : Tracker :=
  let st := fold_left track rows st in
  {| lastCycles := lastCycles st; messages := messages st; liveFloats := rows |}.
End LiveTracker.

(** Inputs of the further worked examples. *)
Definition surface_row : row := <["TEMP" := VNum 18.5%float]> ∅.

Definition float_row (platform : string) (cycle : float) : row :=
  <["platform_number" := VStr platform]> (<["cycle_number" := VNum cycle]> ∅).

Definition two_floats : list row :=
  [float_row "2902275" 41%float; float_row "2902276" 7%float].

Definition fresh_tracker : Tracker :=
  {| lastCycles := ∅; messages := []; liveFloats := [] |}.

Definition chart_titled (title : string) : ChartSpec :=
  {| viz_type := scatter;
     viz_data := [];
     viz_layout := {| lay_title := title; lay_xaxis := ""; lay_yaxis := "";
                      lay_reversed := false; lay_height := 400 |} |}.

(** Text made of ASCII characters only. *)
Definition ascii_text (s : string) : bool :=
  forallb (fun c => (nat_of_ascii c <? 128)%nat) (list_ascii_of_string s).

(** The month of a row as the specification words it: TIME and TEMP are
    not null and TIME parses to a date; the group is that date's UTC
    year-month key. *)
Definition row_month_spec `{Host} (d : row) : option string :=
  if negb (is_null (get d "TIME")) && negb (is_null (get d "TEMP")) then
    match newDate (get d "TIME") with
    | Some t => Some (month_key t)
    | None => None
    end
  else None.

(** The groups of the box plot under that reading. *)
Definition byMonth_spec `{Host} (nd : list row) : list (string * list float) :=
  fold_left
    (fun m d =>
       match row_month_spec d with
       | Some k => push_month k (ToNumber (get d "TEMP")) m
       | None => m
       end)
    nd [].

(** A row timed by a number, in milliseconds since the epoch. *)
Definition timed_row (time temp : float) : row :=
  <["TIME" := VNum time]>
    (<["TEMP" := VNum temp]>
       (<["PSAL" := VNum 35%float]> (<["PRES" := VNum 100%float]> ∅))).

Definition epoch_number_rows : list row :=
  [timed_row 0%float 10%float; measured_row "2023-01-05" 12%float].

(** * Properties *)

(** ** Normalization *)

Lemma nullish_chain_defined (a b c : value) :
  is_undefined (a ?? b ?? c ?? VNull) = false.
Proof. by destruct a, b, c. Qed.

Lemma nullish_pair_defined (a b : value) :
  is_undefined (a ?? b ?? VNull) = false.
Proof. by destruct a, b. Qed.

Lemma get_insert_eq (r : row) (k : string) (v : value) :
  get (<[k:=v]> r) k = v.
Proof. unfold get. by rewrite lookup_insert_eq. Qed.

Lemma get_insert_ne (r : row) (k k' : string) (v : value) :
  k ≠ k' → get (<[k:=v]> r) k' = get r k'.
Proof. intros Hne. unfold get. by rewrite lookup_insert_ne. Qed.

Lemma canonical_cases (k : string) :
  canonical k = true → k = "TEMP" ∨ k = "PSAL" ∨ k = "PRES" ∨ k = "TIME".
Proof.
  unfold canonical. rewrite !orb_true_iff, !String.eqb_eq. tauto.
Qed.

Lemma canonical_false (k : string) :
  canonical k = false →
  k ≠ "TEMP" ∧ k ≠ "PSAL" ∧ k ≠ "PRES" ∧ k ≠ "TIME".
Proof.
  unfold canonical. rewrite !orb_false_iff, !String.eqb_neq. tauto.
Qed.

Lemma alias_value_eqs (r : row) :
  alias_value r "TEMP"
    = get r "temperature_c" ?? get r "temp" ?? get r "temperature" ?? VNull
  ∧ alias_value r "PSAL"
    = get r "salinity_psu" ?? get r "psal" ?? get r "salinity" ?? VNull
  ∧ alias_value r "PRES"
    = get r "pressure_dbar" ?? get r "pres" ?? get r "pressure" ?? VNull
  ∧ alias_value r "TIME" = get r "juld" ?? get r "time" ?? VNull.
Proof. by repeat split. Qed.

Ltac case_undefined :=
  repeat match goal with
    | |- context [if is_undefined ?v then _ else _] =>
        let E := fresh "E" in destruct (is_undefined v) eqn:E
    end.

(** What normalization does to each key of a row. *)
Lemma normalize_row_lookup (r : row) (k : string) :
  normalize_row r !! k =
    if canonical k && is_undefined (get r k)
    then Some (alias_value r k) else r !! k.
Proof.
  destruct (alias_value_eqs r) as (A1 & A2 & A3 & A4).
  unfold normalize_row.
  destruct (canonical k) eqn:Hc; cbn [andb].
  - apply canonical_cases in Hc.
    destruct Hc as [-> | [-> | [-> | ->]]];
      rewrite ?A1, ?A2, ?A3, ?A4; clear A1 A2 A3 A4;
      case_undefined;
      repeat (rewrite lookup_insert_eq || rewrite lookup_insert_ne by done);
      rewrite ?get_insert_ne in * by done;
      try done; try congruence.
  - apply canonical_false in Hc. destruct Hc as (H1 & H2 & H3 & H4).
    case_undefined;
      by repeat (rewrite lookup_insert_ne by done).
Qed.

Lemma alias_value_defined (r : row) (k : string) :
  is_undefined (alias_value r k) = false.
Proof.
  unfold alias_value.
  repeat case_match;
    auto using nullish_chain_defined, nullish_pair_defined.
Qed.

Lemma normalize_row_get (r : row) (k : string) :
  get (normalize_row r) k =
    if canonical k && is_undefined (get r k) then alias_value r k else get r k.
Proof.
  unfold get at 1. rewrite normalize_row_lookup.
  by destruct (canonical k && is_undefined (get r k)).
Qed.

Lemma normalize_row_defined (r : row) (k : string) :
  canonical k = true → is_undefined (get (normalize_row r) k) = false.
Proof.
  intros Hc. rewrite normalize_row_get, Hc. cbn [andb].
  destruct (is_undefined (get r k)) eqn:E; [apply alias_value_defined | done].
Qed.

Lemma normalize_row_idem (r : row) :
  normalize_row (normalize_row r) = normalize_row r.
Proof.
  apply map_eq. intros k.
  rewrite (normalize_row_lookup (normalize_row r)).
  destruct (canonical k) eqn:Hc; [| done].
  by rewrite normalize_row_defined.
Qed.

Lemma normalizedData_map (data : list row) :
  normalizedData data = List.map normalize_row data.
Proof. by destruct data. Qed.

Lemma hasData_normalizedData (data : list row) :
  hasData (normalizedData data) = hasData data.
Proof.
  rewrite normalizedData_map. unfold hasData. by rewrite length_map.
Qed.

(** C4. Normalization is idempotent: normalizing an already normalized
    sequence of rows returns it unchanged. *)
Theorem normalize_idempotent (X : list row) :
  normalizedData (normalizedData X) = normalizedData X.
Proof.
  rewrite !normalizedData_map, List.map_map.
  apply List.map_ext. intros r. apply normalize_row_idem.
Qed.

(** C9. Frame property of normalization.  The i-th normalized row agrees
    with the i-th raw row on every key that is not canonical; a canonical
    key the raw row defines keeps its value; a canonical key the raw row
    leaves undefined receives the first non-null alias of its chain, or null,
    and is never left undefined. *)
Theorem normalize_frame (data : list row) (i : nat) (r : row) (k : string) :
  data !! i = Some r →
  ∃ out : row,
    normalizedData data !! i = Some out
    ∧ (canonical k = false → out !! k = r !! k)
    ∧ (canonical k = true → get r k ≠ VUndef → out !! k = r !! k)
    ∧ (canonical k = true → get r k = VUndef →
       out !! k = Some (alias_value r k) ∧ alias_value r k ≠ VUndef).
Proof.
  intros Hi. exists (normalize_row r).
  split.
  { rewrite normalizedData_map.
    change (List.map normalize_row data) with (normalize_row <$> data).
    by rewrite list_lookup_fmap, Hi. }
  rewrite normalize_row_lookup.
  split; [| split].
  - by intros ->.
  - intros -> Hdef. cbn [andb].
    by destruct (get r k).
  - intros -> ->. split; [done |].
    intros E. pose proof (alias_value_defined r k) as Hd.
    by rewrite E in Hd.
Qed.

Lemma normalize_frame_witness :
  ∃ out : row,
    normalizedData [profile_row] !! 0%nat = Some out
    ∧ out !! "TEMP" = Some (VNum 12.5%float)
    ∧ out !! "temperature_c" = profile_row !! "temperature_c".
Proof.
  destruct (normalize_frame [profile_row] 0 profile_row "TEMP" eq_refl)
    as (out & Hout & _ & _ & Hfill).
  destruct (normalize_frame [profile_row] 0 profile_row "temperature_c" eq_refl)
    as (out' & Hout' & Hkeep & _).
  exists out. split; [exact Hout |]. split.
  - exact (proj1 (Hfill eq_refl eq_refl)).
  - rewrite Hout in Hout'. injection Hout' as <-. exact (Hkeep eq_refl).
Defined.

(** ** The generator *)

Ltac rule_cases :=
  repeat match goal with
    | |- context [if ?b then _ else _] => destruct b eqn:?
    end.

Ltac each_chart tac :=
  rule_cases;
  repeat (apply Forall_app; split);
  repeat (apply Forall_cons; split);
  try apply Forall_nil; tac.

Section GeneratorProperties.
Context `{Host}.

Lemma defined_normalize_row (k : string) (r : row) :
  canonical k = true → defined k (normalize_row r) = true.
Proof.
  intros Hc. unfold defined. by rewrite normalize_row_defined.
Qed.

(** On normalized rows the three availability flags only say whether there
    is a row at all. *)
Lemma flags_normalizedData (data : list row) :
  hasTemp (normalizedData data) = hasData data
  ∧ hasSal (normalizedData data) = hasData data
  ∧ hasTime (normalizedData data) = hasData data.
Proof.
  rewrite normalizedData_map.
  destruct data as [| r data]; [done |].
  unfold hasTemp, hasSal, hasTime. cbn [List.map existsb].
  by rewrite !defined_normalize_row.
Qed.

Lemma createVisualizations_unfold (data : list row) (profession intent : string) :
  createVisualizations data profession intent =
    if hasData data
    then visualization_rules true true true (normalizedData data)
           (toLowerCase (profession_or_default profession))
           (toLowerCase intent)
    else [].
Proof.
  unfold createVisualizations, createVisualizations_on.
  destruct (flags_normalizedData data) as (-> & -> & ->).
  by destruct (hasData data).
Qed.

Lemma unshift_all (hv vis : list ChartSpec) :
  fold_left (fun vis h => h :: vis) hv vis = rev hv ++ vis.
Proof.
  revert vis. induction hv as [| h hv IH]; intros vis; [done |].
  cbn [fold_left rev]. rewrite IH. by rewrite <- app_assoc.
Qed.

Lemma persona_rules_Forall (P : ChartSpec → Prop)
    (hT hS hTi : bool) (nd : list row) (prof : string) :
  Forall P (researcher_rules hT hS hTi nd) →
  Forall P (fisherman_rules hT hS nd) →
  Forall P (policymaker_rules nd) →
  Forall P (student_rules hT hS nd) →
  Forall P (persona_rules prof hT hS hTi nd).
Proof.
  intros Hr Hf Hp Hs. unfold persona_rules.
  repeat (apply Forall_app; split); by case_match.
Qed.

(** A property of every chart of every rule block holds of every generated
    chart. *)
Lemma visualization_rules_Forall (P : ChartSpec → Prop)
    (hT hS hTi : bool) (nd : list row) (prof q : string) :
  Forall P (persona_rules prof hT hS hTi nd) →
  Forall P (histVisuals hT hS nd) →
  Forall P (ts_rule hT hS nd) →
  Forall P (heatmap_rule hT hTi nd) →
  Forall P (box_rule hT hTi nd) →
  Forall P (visualization_rules hT hS hTi nd prof q).
Proof.
  intros Hp Hh Ht Hm Hb. unfold visualization_rules.
  repeat (apply Forall_app; split); try done.
  unfold histogram_override. repeat case_match; try done.
  rewrite unshift_all. apply Forall_app. split; [| done].
  by apply Forall_rev.
Qed.

(** A generated chart whose first trace is a histogram is itself of type
    histogram: [isHistogram] reads the chart's kind. *)
Lemma generated_isHistogram (hT hS hTi : bool) (nd : list row) (prof q : string) :
  Forall (fun v => isHistogram v = plot_type_eqb (viz_type v) histogram)
    (visualization_rules hT hS hTi nd prof q).
Proof.
  apply visualization_rules_Forall.
  - apply persona_rules_Forall.
    + unfold researcher_rules. each_chart ltac:(try reflexivity).
    + unfold fisherman_rules. each_chart ltac:(try reflexivity).
    + unfold policymaker_rules. each_chart ltac:(try reflexivity).
    + unfold student_rules. each_chart ltac:(try reflexivity).
  - unfold histVisuals. each_chart ltac:(try reflexivity).
  - unfold ts_rule. each_chart ltac:(try reflexivity).
  - unfold heatmap_rule. each_chart ltac:(try reflexivity).
  - unfold box_rule. each_chart ltac:(try reflexivity).
    unfold isHistogram. cbn. by destruct (month_labels nd).
Qed.

End GeneratorProperties.

Section PersonaAndGating.
Context `{Host}.

Lemma filter_none {A : Type} (p : A → bool) (l : list A) :
  Forall (fun x => p x = false) l → List.filter p l = [].
Proof.
  induction 1 as [| x l Hx _ IH]; [done |].
  cbn [List.filter]. by rewrite Hx.
Qed.

Lemma no_ts_before (hT hS hTi : bool) (nd : list row) (prof : string) (w : bool) :
  Forall (fun v => is_ts v = false)
    (histogram_override w hT hS nd (persona_rules prof hT hS hTi nd)).
Proof.
  assert (Forall (fun v => is_ts v = false) (persona_rules prof hT hS hTi nd)) as Hp.
  { apply persona_rules_Forall.
    - unfold researcher_rules. each_chart ltac:(try reflexivity).
    - unfold fisherman_rules. each_chart ltac:(try reflexivity).
    - unfold policymaker_rules. each_chart ltac:(try reflexivity).
    - unfold student_rules. each_chart ltac:(try reflexivity). }
  assert (Forall (fun v => is_ts v = false) (histVisuals hT hS nd)) as Hh.
  { unfold histVisuals. each_chart ltac:(try reflexivity). }
  unfold histogram_override. repeat case_match; try done.
  rewrite unshift_all. apply Forall_app. split; [by apply Forall_rev | done].
Qed.

Lemma no_ts_after (hT hTi : bool) (nd : list row) :
  Forall (fun v => is_ts v = false) (heatmap_rule hT hTi nd ++ box_rule hT hTi nd).
Proof.
  unfold heatmap_rule, box_rule. each_chart ltac:(try reflexivity).
Qed.

(** C6. T-S diagram gating: the generated list holds one chart titled as
    the T-S diagram when more than 20 normalized rows have both TEMP and
    PSAL non-null, and none otherwise (20 such rows: none; 21: one). *)
Theorem ts_gating (data : list row) (profession intent : string) :
  List.length (List.filter is_ts (createVisualizations data profession intent))
  = if longer_than 20 (tsData data) then 1 else 0.
Proof.
  rewrite createVisualizations_unfold. unfold tsData.
  destruct (hasData data) eqn:Hd.
  - unfold visualization_rules.
    rewrite !List.filter_app.
    rewrite (filter_none _ _ (no_ts_before _ _ _ _ _ _)).
    rewrite <- List.filter_app.
    rewrite (filter_none _ _ (no_ts_after _ _ _)).
    rewrite app_nil_r. cbn [app].
    unfold ts_rule, nonnull. cbn [andb].
    by case_match.
  - destruct data; [done | discriminate].
Qed.

(** C10. After normalization every row defines the four canonical fields, so
    for a non-empty dataset the three availability flags are true and the
    generator runs its rules as if the flags were the constant true: which
    charts appear is decided by the inner filters and their size thresholds
    alone. *)
Theorem availability_flags (data : list row) (profession intent : string) :
  hasData data = true →
  Forall (fun d => defined "TEMP" d && defined "PSAL" d
                   && defined "PRES" d && defined "TIME" d = true)
    (normalizedData data)
  ∧ hasTemp (normalizedData data) = true
  ∧ hasSal (normalizedData data) = true
  ∧ hasTime (normalizedData data) = true
  ∧ createVisualizations data profession intent
    = visualization_rules true true true (normalizedData data)
        (toLowerCase (profession_or_default profession)) (toLowerCase intent).
Proof.
  intros Hd.
  destruct (flags_normalizedData data) as (HT & HS & HTi).
  rewrite HT, HS, HTi, createVisualizations_unfold, Hd.
  repeat split; try done.
  rewrite normalizedData_map. apply List.Forall_forall.
  intros d Hin. apply in_map_iff in Hin. destruct Hin as (r & <- & _).
  by rewrite !defined_normalize_row.
Qed.

Lemma persona_rules_unrecognized (prof : string) (hT hS hTi : bool) (nd : list row) :
  recognized prof = false → persona_rules prof hT hS hTi nd = [].
Proof.
  unfold recognized, persona_rules. rewrite !orb_false_iff.
  by intros (((-> & ->) & ->) & ->).
Qed.

(** C2, as amended.  A missing (empty) persona is read as Researcher, and
    personas are compared without regard to case.  A persona that names none
    of the four rule blocks selects no persona chart at all: what remains is
    the histogram override applied to an empty list, followed by the T-S,
    heatmap and box-plot rules. *)
Theorem persona_dispatch (data : list row) (profession intent : string) :
  createVisualizations data "" intent
    = createVisualizations data "Researcher" intent
  ∧ (∀ other : string,
       toLowerCase (profession_or_default other)
         = toLowerCase (profession_or_default profession) →
       createVisualizations data other intent
         = createVisualizations data profession intent)
  ∧ (recognized (toLowerCase (profession_or_default profession)) = false →
     createVisualizations data profession intent
     = if hasData data then
         let nd := normalizedData data in
         histogram_override (test re_wantsHistogram (toLowerCase intent))
           true true nd []
         ++ ts_rule true true nd ++ heatmap_rule true true nd
         ++ box_rule true true nd
       else []).
Proof.
  split; [done |]. split.
  - intros other Heq. unfold createVisualizations, createVisualizations_on.
    by rewrite Heq.
  - intros Hr. rewrite createVisualizations_unfold.
    unfold visualization_rules.
    by rewrite persona_rules_unrecognized.
Qed.

End PersonaAndGating.

Lemma availability_flags_witness :
  hasData [profile_row] = true
  ∧ hasTemp (normalizedData [profile_row]) = true
  ∧ createVisualizations (H := plain_host) [profile_row] "Researcher" ""
    = visualization_rules (H := plain_host) true true true
        (normalizedData [profile_row]) "researcher" "".
Proof.
  pose proof (availability_flags (H := plain_host) [profile_row] "Researcher" ""
                eq_refl) as (_ & HT & _ & _ & Hc).
  exact (conj eq_refl (conj HT Hc)).
Defined.

Lemma persona_dispatch_witness :
  recognized (toLowerCase (profession_or_default "Captain")) = false
  ∧ createVisualizations (H := plain_host) [profile_row] "Captain" "histogram"
    = histogram_override (H := plain_host) true true true
        (normalizedData [profile_row]) []
      ++ ts_rule true true (normalizedData [profile_row])
      ++ heatmap_rule (H := plain_host) true true (normalizedData [profile_row])
      ++ box_rule (H := plain_host) true true (normalizedData [profile_row]).
Proof.
  split; [reflexivity |].
  exact (proj2 (proj2 (persona_dispatch (H := plain_host) [profile_row]
                         "Captain" "histogram")) eq_refl).
Defined.

(** C2, as the specification words it, fails: with one row holding a
    temperature and a pressure, persona "Captain" yields no chart while
    persona "Researcher" yields the temperature profile, whatever the host. *)
Lemma unknown_persona_is_not_researcher :
  recognized (toLowerCase "Captain") = false
  ∧ ¬ (∃ H : Host,
         createVisualizations [profile_row] "Captain" ""
         = createVisualizations [profile_row] "Researcher" "").
Proof.
  split; [reflexivity |].
  intros [H E]. vm_compute in E. discriminate E.
Qed.

(** ** Sorting *)

Section SortProperties.
Context {A : Type} (cmp : A → A → Z) (key : A → Z).
Hypothesis cmp_key : ∀ a b, cmp a b = (key b - key a)%Z.

Lemma sort_insert_perm (x : A) (l : list A) :
  Permutation (sort_insert cmp x l) (x :: l).
Proof.
  induction l as [| y l IH]; cbn [sort_insert]; [done |].
  case_match; [done |].
  rewrite IH. apply perm_swap.
Qed.

Lemma js_sort_perm (l : list A) : Permutation (js_sort cmp l) l.
Proof.
  induction l as [| x l IH]; cbn [js_sort]; [done |].
  by rewrite sort_insert_perm, IH.
Qed.

(** Insertion passes only elements of strictly greater key, so the
    elements of any one key keep their order. *)
Lemma sort_insert_filter (s : Z) (x : A) (l : list A) :
  List.filter (fun a => (key a =? s)%Z) (sort_insert cmp x l)
  = List.filter (fun a => (key a =? s)%Z) (x :: l).
Proof.
  induction l as [| y l IH]; cbn [sort_insert]; [done |].
  destruct (cmp x y <=? 0)%Z eqn:Hc; [done |].
  rewrite cmp_key in Hc. apply Z.leb_gt in Hc.
  cbn [List.filter] in *. rewrite IH.
  destruct (key x =? s)%Z eqn:Hx, (key y =? s)%Z eqn:Hy; try done.
  apply Z.eqb_eq in Hx, Hy. lia.
Qed.

Lemma js_sort_stable (s : Z) (l : list A) :
  List.filter (fun a => (key a =? s)%Z) (js_sort cmp l)
  = List.filter (fun a => (key a =? s)%Z) l.
Proof.
  induction l as [| x l IH]; cbn [js_sort]; [done |].
  rewrite sort_insert_filter. cbn [List.filter]. by rewrite IH.
Qed.

End SortProperties.

Section SortOrder.
Context {A : Type} (cmp : A → A → Z).
Hypothesis cmp_total : ∀ a b, (0 < cmp a b)%Z → (cmp b a <= 0)%Z.
Hypothesis cmp_trans :
  ∀ a b c, (cmp a b <= 0)%Z → (cmp b c <= 0)%Z → (cmp a c <= 0)%Z.

Lemma sort_insert_sorted (x : A) (l : list A) :
  StronglySorted (fun a b => (cmp a b <= 0)%Z) l →
  StronglySorted (fun a b => (cmp a b <= 0)%Z) (sort_insert cmp x l).
Proof.
  induction 1 as [| y l Hl IH Hy]; cbn [sort_insert].
  - by repeat constructor.
  - destruct (cmp x y <=? 0)%Z eqn:Hc.
    + apply Z.leb_le in Hc. constructor; [by constructor |].
      constructor; [done |].
      eapply Forall_impl; [exact Hy |]. cbn. eauto.
    + apply Z.leb_gt in Hc. constructor; [done |].
      rewrite sort_insert_perm. constructor; [auto | done].
Qed.

Lemma js_sort_sorted (l : list A) :
  StronglySorted (fun a b => (cmp a b <= 0)%Z) (js_sort cmp l).
Proof.
  induction l as [| x l IH]; cbn [js_sort]; [constructor |].
  by apply sort_insert_sorted.
Qed.

End SortOrder.

(** ** Ranking *)

Section Ranking.
Variables (visualizations : list ChartSpec) (q : string).

Local Abbreviation stands_for := (scored_index visualizations q).

Lemma indexed_stands_for :
  Forall2 stands_for
    (imap (fun idx viz => {| pr_idx := idx; pr_score := score viz q |})
       visualizations)
    visualizations.
Proof.
  apply Forall2_same_length_lookup_2; [by rewrite length_imap |].
  intros i p v Hp Hv. rewrite list_lookup_imap, Hv in Hp.
  by injection Hp as <-.
Qed.

Lemma sort_insert_stands_for (p : Priority) (v : ChartSpec)
    (ps : list Priority) (vs : list ChartSpec) :
  stands_for p v → Forall2 stands_for ps vs →
  Forall2 stands_for
    (sort_insert (fun a b => (pr_score b - pr_score a)%Z) p ps)
    (sort_insert (fun a b => (score b q - score a q)%Z) v vs).
Proof.
  intros Hp. induction 1 as [| p' v' ps vs Hp' Hps IH]; cbn [sort_insert].
  - constructor; [done | constructor].
  - rewrite (proj2 Hp), (proj2 Hp').
    case_match; repeat (constructor; try done).
Qed.

Lemma js_sort_stands_for (ps : list Priority) (vs : list ChartSpec) :
  Forall2 stands_for ps vs →
  Forall2 stands_for
    (js_sort (fun a b => (pr_score b - pr_score a)%Z) ps)
    (js_sort (fun a b => (score b q - score a q)%Z) vs).
Proof.
  induction 1; cbn [js_sort]; [constructor |].
  by apply sort_insert_stands_for.
Qed.

Lemma lookup_stands_for (ps : list Priority) (vs : list ChartSpec) :
  Forall2 stands_for ps vs →
  omap (fun p => visualizations !! pr_idx p) ps = vs.
Proof.
  induction 1 as [| p v ps vs Hp _ IH]; [done |].
  cbn [omap list_omap]. by rewrite (proj1 Hp), IH.
Qed.

(** Lines 479-491 sort the charts themselves, stably, by decreasing score. *)
Lemma priority_lookup :
  omap (fun p => visualizations !! pr_idx p) (priority visualizations q)
  = js_sort (fun a b => (score b q - score a q)%Z) visualizations.
Proof.
  apply lookup_stands_for, js_sort_stands_for, indexed_stands_for.
Qed.

End Ranking.

Lemma rank_sort (visualizations : list ChartSpec) (intent : string) :
  rank visualizations intent =
    if longer_than 0 visualizations && negb (String.eqb intent "")
    then js_sort (fun a b => (score b (toLowerCase intent)
                              - score a (toLowerCase intent))%Z)
           (ranking_input visualizations intent)
    else visualizations.
Proof.
  unfold rank, ranking_input.
  case_match; [| done]. apply priority_lookup.
Qed.

Lemma filter_app_inv {A : Type} (p : A → bool) (l : list A) (l1 l2 : list A) :
  List.filter p l = l1 ++ l2 →
  ∃ m1 m2, l = m1 ++ m2 ∧ List.filter p m1 = l1 ∧ List.filter p m2 = l2.
Proof.
  revert l1. induction l as [| x l IH]; intros l1 E.
  - cbn in E. symmetry in E. apply app_eq_nil in E as [-> ->].
    by exists [], [].
  - cbn [List.filter] in E. destruct (p x) eqn:Hx.
    + destruct l1 as [| y l1].
      * exists [], (x :: l). cbn [List.filter app]. by rewrite Hx.
      * cbn [app] in E. injection E as <- E.
        destruct (IH _ E) as (m1 & m2 & -> & <- & <-).
        exists (x :: m1), m2. cbn [List.filter app]. by rewrite Hx.
    + destruct (IH _ E) as (m1 & m2 & -> & <- & <-).
      exists (x :: m1), m2. cbn [List.filter app]. by rewrite Hx.
Qed.

Lemma filter_cons_inv {A : Type} (p : A → bool) (l : list A) (a : A) (r : list A) :
  List.filter p l = a :: r →
  ∃ m1 m2, l = m1 ++ a :: m2 ∧ List.filter p m2 = r.
Proof.
  induction l as [| x l IH]; intros E; [done |].
  cbn [List.filter] in E. destruct (p x) eqn:Hx.
  - injection E as -> E. by exists [], l.
  - destruct (IH E) as (m1 & m2 & -> & <-). by exists (x :: m1), m2.
Qed.

(** Equal filters carry the order of two kept elements from one list to
    the other. *)
Lemma before_filter {A : Type} (p : A → bool) (a b : A) (l l' : list A) :
  p a = true → p b = true →
  List.filter p l' = List.filter p l →
  before a b l → before a b l'.
Proof.
  intros Ha Hb E (l1 & l2 & l3 & ->).
  rewrite List.filter_app in E. cbn [List.filter] in E. rewrite Ha in E.
  rewrite List.filter_app in E. cbn [List.filter] in E. rewrite Hb in E.
  apply filter_app_inv in E as (m1 & m2 & -> & _ & E).
  apply filter_cons_inv in E as (m3 & m4 & -> & E).
  apply filter_app_inv in E as (m5 & m6 & -> & _ & E).
  apply filter_cons_inv in E as (m7 & m8 & -> & _).
  exists (m1 ++ m3), (m5 ++ m7), m8.
  by rewrite <- !app_assoc.
Qed.

Lemma rank_perm (visualizations : list ChartSpec) (intent : string) :
  Permutation (rank visualizations intent)
    (ranking_input visualizations intent).
Proof.
  rewrite rank_sort. unfold ranking_input.
  case_match; [| done]. apply js_sort_perm.
Qed.

Lemma rank_filter_scored (visualizations : list ChartSpec) (intent : string) (s : Z) :
  List.filter (scored s (toLowerCase intent)) (rank visualizations intent)
  = List.filter (scored s (toLowerCase intent))
      (ranking_input visualizations intent).
Proof.
  rewrite rank_sort. unfold scored.
  destruct (longer_than 0 visualizations && negb (String.eqb intent "")) eqn:E.
  - by apply (js_sort_stable _ (fun v => score v (toLowerCase intent))).
  - unfold ranking_input. by rewrite E.
Qed.

(** C8. Ranking is a stable reordering.  The output is a permutation of
    the list being ranked (the input, or its histograms when line 475
    narrows it), so no chart is created, lost or duplicated; for every score
    the charts of that score appear in the output in their input order; in
    particular, of two input charts with equal scores the one that comes
    first in the input comes first in the output. *)
Theorem rank_stable (visualizations : list ChartSpec) (intent : string) :
  Permutation (rank visualizations intent)
    (ranking_input visualizations intent)
  ∧ (ranking_input visualizations intent = visualizations
     ∨ ranking_input visualizations intent
       = List.filter isHistogram visualizations)
  ∧ (∀ s : Z,
       List.filter (scored s (toLowerCase intent)) (rank visualizations intent)
       = List.filter (scored s (toLowerCase intent))
           (ranking_input visualizations intent))
  ∧ (∀ a b : ChartSpec,
       score a (toLowerCase intent) = score b (toLowerCase intent) →
       before a b (ranking_input visualizations intent) →
       before a b (rank visualizations intent)).
Proof.
  split; [apply rank_perm | split; [| split]].
  - unfold ranking_input, histogram_filter. repeat case_match; auto.
  - intros s. apply rank_filter_scored.
  - intros a b Hab Hbefore.
    apply (before_filter (scored (score a (toLowerCase intent)) (toLowerCase intent))
             a b (ranking_input visualizations intent)).
    + unfold scored. apply Z.eqb_refl.
    + unfold scored. rewrite Hab. apply Z.eqb_refl.
    + apply rank_filter_scored.
    + exact Hbefore.
Qed.

(** The ranked list is ordered by decreasing score. *)
Lemma rank_sorted (visualizations : list ChartSpec) (intent : string) :
  longer_than 0 visualizations && negb (String.eqb intent "") = true →
  StronglySorted
    (fun a b => (score b (toLowerCase intent) - score a (toLowerCase intent) <= 0)%Z)
    (rank visualizations intent).
Proof.
  intros E. rewrite rank_sort, E.
  apply (js_sort_sorted
           (fun a b => (score b (toLowerCase intent)
                        - score a (toLowerCase intent))%Z)); intros; lia.
Qed.

(** ** Intent patterns *)

Lemma append_String (c : ascii) (a b : string) :
  (String c a ++ b)%string = String c (a ++ b)%string.
Proof. reflexivity. Qed.

Lemma append_empty (b : string) : ("" ++ b)%string = b.
Proof. reflexivity. Qed.

Lemma toLowerCase_app (a b : string) :
  toLowerCase (a ++ b)%string = (toLowerCase a ++ toLowerCase b)%string.
Proof.
  induction a as [| c a IH]; [done |].
  rewrite append_String. cbn [toLowerCase].
  by rewrite append_String, IH.
Qed.

(** A match that succeeds at the head of [s] whatever precedes it is found
    by the search in any text that ends with [s]. *)
Lemma search_suffix (r : regex) (pre s : string) (prev : option ascii) :
  (∀ p, match_here r (fun _ _ => true) p s = true) →
  search r prev (pre ++ s)%string = true.
Proof.
  intros Hs. revert prev. induction pre as [| c pre IH]; intros prev.
  - rewrite append_empty. destruct s; cbn [search]; by rewrite Hs.
  - rewrite append_String. cbn [search]. rewrite IH. apply orb_true_r.
Qed.

Lemma wantsHistogram_word (pre post : string) :
  test re_wantsHistogram (toLowerCase (pre ++ "histogram" ++ post)%string)
  = true.
Proof.
  rewrite !toLowerCase_app. unfold test.
  apply search_suffix. intros p. reflexivity.
Qed.

Lemma histogram_text_nonempty (pre post : string) :
  String.eqb (pre ++ "histogram" ++ post)%string "" = false.
Proof. by destruct pre. Qed.

(** ** The histogram override *)

Section HistogramOverride.
Context `{Host}.

Lemma generated_kind (data : list row) (profession intent : string) :
  Forall (fun v => isHistogram v = kind_histogram v)
    (createVisualizations data profession intent).
Proof.
  rewrite createVisualizations_unfold.
  destruct (hasData data); [apply generated_isHistogram | constructor].
Qed.

Lemma filter_ext_Forall {A : Type} (p p' : A → bool) (l : list A) :
  Forall (fun x => p x = p' x) l → List.filter p l = List.filter p' l.
Proof.
  induction 1 as [| x l Hx _ IH]; [done |].
  cbn [List.filter]. by rewrite Hx, IH.
Qed.

Lemma filter_all {A : Type} (p : A → bool) (l : list A) :
  Forall (fun x => p x = true) (List.filter p l).
Proof.
  apply List.Forall_forall. intros x Hx. by apply List.filter_In in Hx as [_ ?].
Qed.

(** C3. Histogram override.  When the intent text contains the word
    "histogram": if the generator produced a chart of kind histogram, the
    ranked output is a reordering of exactly the histogram charts, so every
    ranked chart has kind histogram; if it produced none, the ranked output
    is a reordering of all generated charts and nothing is discarded. *)
Theorem histogram_only (data : list row) (profession pre post : string) :
  let intent := (pre ++ "histogram" ++ post)%string in
  let candidates := createVisualizations data profession intent in
  (Exists (fun v => kind_histogram v = true) candidates →
   Permutation (ranked data profession intent)
     (List.filter kind_histogram candidates)
   ∧ Forall (fun v => kind_histogram v = true) (ranked data profession intent))
  ∧ (Forall (fun v => kind_histogram v = false) candidates →
     Permutation (ranked data profession intent) candidates).
Proof.
  intros intent candidates.
  pose proof (generated_kind data profession intent) as Hkind.
  fold candidates in Hkind.
  pose proof (rank_perm candidates intent) as Hperm.
  assert (ranking_input candidates intent
          = if longer_than 0 (List.filter kind_histogram candidates)
            then List.filter kind_histogram candidates else candidates) as Hin.
  { unfold ranking_input, histogram_filter, intent.
    rewrite histogram_text_nonempty, wantsHistogram_word.
    rewrite (filter_ext_Forall _ _ _ Hkind).
    destruct candidates; [done |]. by cbn [longer_than length Nat.ltb Nat.leb andb negb]. }
  rewrite Hin in Hperm. unfold ranked. fold candidates.
  split.
  - intros Hex.
    assert (longer_than 0 (List.filter kind_histogram candidates) = true) as Hlen.
    { apply List.Exists_exists in Hex as (v & Hv & Hk).
      assert (In v (List.filter kind_histogram candidates)) as Hf
        by (by apply List.filter_In).
      by destruct (List.filter kind_histogram candidates). }
    rewrite Hlen in Hperm. split; [done |].
    rewrite Hperm. apply filter_all.
  - intros Hnone. rewrite (filter_none _ _ Hnone) in Hperm. exact Hperm.
Qed.

End HistogramOverride.

(** ** Month bucketing *)

Lemma push_month_keys (k k' : string) (v : float) (m : list (string * list float)) :
  In k' (List.map fst (push_month k v m)) ↔ k' = k ∨ In k' (List.map fst m).
Proof.
  induction m as [| [k0 l] m IH]; cbn [push_month List.map fst In].
  - intuition.
  - destruct (String.eqb_spec k k0) as [-> | Hne]; cbn [List.map fst In].
    + intuition.
    + rewrite IH. intuition.
Qed.

Lemma push_month_NoDup (k : string) (v : float) (m : list (string * list float)) :
  List.NoDup (List.map fst m) → List.NoDup (List.map fst (push_month k v m)).
Proof.
  induction m as [| [k0 l] m IH]; cbn [push_month List.map fst]; intros Hm.
  - constructor; [intros [] | constructor].
  - apply List.NoDup_cons_iff in Hm as [Hk0 Hm].
    destruct (String.eqb_spec k k0) as [-> | Hne]; cbn [List.map fst].
    + by constructor.
    + constructor; [| by apply IH].
      rewrite push_month_keys. intros [-> | Hin]; [done | by apply Hk0].
Qed.

Lemma push_month_values (k k' : string) (v : float) (m : list (string * list float)) :
  month_values k' (push_month k v m) =
    if String.eqb k' k then month_values k m ++ [v] else month_values k' m.
Proof.
  induction m as [| [k0 l] m IH]; cbn [push_month month_values].
  - by destruct (String.eqb k' k).
  - destruct (String.eqb_spec k k0) as [-> | Hne]; cbn [month_values].
    + destruct (String.eqb_spec k' k0) as [-> | Hne']; [| done].
      by cbn [month_values].
    + rewrite IH.
      destruct (String.eqb_spec k' k0) as [-> | Hne']; [| done].
      destruct (String.eqb_spec k0 k) as [-> | _]; [done | done].
Qed.

Section MonthBucketing.
Context `{Host}.

Local Abbreviation step :=
  (fun (m : list (string * list float)) (d : row) =>
     match row_month d with
     | Some k => push_month k (ToNumber (get d "TEMP")) m
     | None => m
     end).

Lemma fold_month_keys (k : string) (nd : list row) (m : list (string * list float)) :
  In k (List.map fst (fold_left step nd m))
  ↔ In k (List.map fst m) ∨ ∃ d, In d nd ∧ row_month d = Some k.
Proof.
  revert m. induction nd as [| d nd IH]; intros m; cbn [fold_left].
  - split; [auto | intros [? | (? & [] & _)]; done].
  - rewrite IH. destruct (row_month d) as [k0 |] eqn:Hd.
    + rewrite push_month_keys. split.
      * intros [[-> | Hin] | (d' & Hin & Hk)]; eauto.
        -- right. exists d. split; [by left | done].
        -- right. exists d'. split; [by right | done].
      * intros [Hin | (d' & [<- | Hin] & Hk)]; eauto.
        left. left. congruence.
    + split.
      * intros [Hin | (d' & Hin & Hk)]; eauto.
        right. exists d'. split; [by right | done].
      * intros [Hin | (d' & [<- | Hin] & Hk)]; eauto. congruence.
Qed.

Lemma fold_month_NoDup (nd : list row) (m : list (string * list float)) :
  List.NoDup (List.map fst m) → List.NoDup (List.map fst (fold_left step nd m)).
Proof.
  revert m. induction nd as [| d nd IH]; intros m Hm; cbn [fold_left]; [done |].
  apply IH. destruct (row_month d); [by apply push_month_NoDup | done].
Qed.

Lemma fold_month_values (k : string) (nd : list row) (m : list (string * list float)) :
  month_values k (fold_left step nd m)
  = month_values k m
    ++ List.map (fun d => ToNumber (get d "TEMP")) (List.filter (in_month k) nd).
Proof.
  revert m. induction nd as [| d nd IH]; intros m; cbn [fold_left List.filter List.map].
  - by rewrite app_nil_r.
  - rewrite IH. unfold in_month at 2.
    destruct (row_month d) as [k0 |] eqn:Hd; [| done].
    rewrite push_month_values.
    destruct (String.eqb_spec k k0) as [-> | Hne]; [| done].
    cbn [List.map]. by rewrite <- app_assoc.
Qed.

End MonthBucketing.

Lemma string_cmp_le (a b : string) :
  (string_cmp a b <= 0)%Z ↔ String.compare a b ≠ Gt.
Proof.
  unfold string_cmp.
  destruct (String.compare a b); split; intros Hc; try done; try lia.
Qed.

Lemma string_cmp_total (a b : string) :
  (0 < string_cmp a b)%Z → (string_cmp b a <= 0)%Z.
Proof.
  rewrite string_cmp_le. unfold string_cmp.
  rewrite (String.compare_antisym b a).
  destruct (String.compare a b); cbn; intros Hc; try done; lia.
Qed.

Lemma string_cmp_trans (a b c : string) :
  (string_cmp a b <= 0)%Z → (string_cmp b c <= 0)%Z → (string_cmp a c <= 0)%Z.
Proof.
  rewrite !string_cmp_le. intros Hab Hbc.
  destruct (String.compare a b) eqn:Eab; [| | done].
  - apply String.compare_eq_iff in Eab as ->. done.
  - destruct (String.compare b c) eqn:Ebc; [| | done].
    + apply String.compare_eq_iff in Ebc as <-. by rewrite Eab.
    + apply OrderedTypeEx.String_as_OT.cmp_lt in Eab, Ebc.
      pose proof (OrderedTypeEx.String_as_OT.lt_trans _ _ _ Eab Ebc) as Hac.
      apply OrderedTypeEx.String_as_OT.cmp_lt in Hac.
      unfold OrderedTypeEx.String_as_OT.cmp in Hac. by rewrite Hac.
Qed.

Lemma sorted_distinct_ascending (l : list string) :
  StronglySorted (fun a b => (string_cmp a b <= 0)%Z) l →
  List.NoDup l →
  StronglySorted (fun a b => String.compare a b = Lt) l.
Proof.
  induction 1 as [| a l Hl IH Ha]; intros Hnd; [constructor |].
  apply List.NoDup_cons_iff in Hnd as [Hnotin Hnd].
  constructor; [by apply IH |].
  apply List.Forall_forall. intros b Hb.
  rewrite List.Forall_forall in Ha. specialize (Ha b Hb).
  apply string_cmp_le in Ha.
  destruct (String.compare a b) eqn:E; [| done | done].
  apply String.compare_eq_iff in E as ->. done.
Qed.

Section MonthlyBoxPlot.
Context `{Host}.

(** The guard of lines 419-421, spelled out. *)
Lemma row_month_guard (d : row) (k : string) :
  row_month d = Some k
  ↔ truthy (get d "TIME") = true
    ∧ is_nullish (get d "TEMP") = false
    ∧ ∃ t : Z, newDate (get d "TIME") = Some t ∧ k = month_key t.
Proof.
  unfold row_month.
  destruct (truthy (get d "TIME")), (is_nullish (get d "TEMP")); cbn [andb negb];
    try (split; [done | intros (? & ? & _); done]).
  destruct (newDate (get d "TIME")) as [t |].
  - split.
    + intros [= <-]. repeat split. by exists t.
    + intros (_ & _ & t' & [= <-] & ->). done.
  - split; [done | intros (_ & _ & t' & Ht & _); done].
Qed.

Lemma month_labels_spec (nd : list row) :
  (∀ k, In k (month_labels nd) ↔ ∃ d, In d nd ∧ row_month d = Some k)
  ∧ StronglySorted (fun a b => String.compare a b = Lt) (month_labels nd).
Proof.
  pose proof (js_sort_perm string_cmp (List.map fst (byMonth nd))) as Hperm.
  fold (month_labels nd) in Hperm.
  split.
  - intros k. transitivity (In k (List.map fst (byMonth nd))).
    + split; apply Permutation_in; [done | by symmetry].
    + unfold byMonth. rewrite fold_month_keys. cbn [List.map In]. intuition.
  - apply sorted_distinct_ascending.
    + apply js_sort_sorted; [apply string_cmp_total | apply string_cmp_trans].
    + apply (Permutation_NoDup (Permutation_sym Hperm)).
      apply fold_month_NoDup. constructor.
Qed.

Lemma no_box_before (hT hS hTi : bool) (nd : list row) (prof : string) (w : bool) :
  Forall (fun v => is_box v = false)
    (histogram_override w hT hS nd (persona_rules prof hT hS hTi nd)
     ++ ts_rule hT hS nd ++ heatmap_rule hT hTi nd).
Proof.
  assert (Forall (fun v => is_box v = false) (persona_rules prof hT hS hTi nd)) as Hp.
  { apply persona_rules_Forall.
    - unfold researcher_rules. each_chart ltac:(try reflexivity).
    - unfold fisherman_rules. each_chart ltac:(try reflexivity).
    - unfold policymaker_rules. each_chart ltac:(try reflexivity).
    - unfold student_rules. each_chart ltac:(try reflexivity). }
  assert (Forall (fun v => is_box v = false) (histVisuals hT hS nd)) as Hh.
  { unfold histVisuals. each_chart ltac:(try reflexivity). }
  apply Forall_app. split.
  - unfold histogram_override. repeat case_match; try done.
    rewrite unshift_all. apply Forall_app. split; [by apply Forall_rev | done].
  - unfold ts_rule, heatmap_rule. each_chart ltac:(try reflexivity).
Qed.

(** What the box plot rule computes.  A row enters the box plot when
    [row_month] gives it a month: its TIME is truthy and parses to a date and
    its TEMP is neither null nor undefined ([row_month_guard]).  The labels
    are exactly the months of such rows, in strictly ascending order; the
    values of a label are the temperatures of its rows, in row order; the
    generated list holds the box plot, one box per label, when there are at
    least two labels, and no box plot otherwise; the dates 2023-01-05 and
    2023-01-20 both have the key "2023-01". *)
Lemma monthly_box_plot (data : list row) (profession intent : string) :
  let nd := normalizedData data in
  let labels := month_labels nd in
  (∀ k, In k labels ↔ ∃ d, In d nd ∧ row_month d = Some k)
  ∧ StronglySorted (fun a b => String.compare a b = Lt) labels
  ∧ (∀ k, month_values k (byMonth nd)
          = List.map (fun d => ToNumber (get d "TEMP"))
              (List.filter (in_month k) nd))
  ∧ List.filter is_box (createVisualizations data profession intent)
    = (if (2 <=? List.length labels)%nat
       then [box_chart (byMonth nd) labels] else [])
  ∧ month_key <$> newDate (VStr "2023-01-05") = Some "2023-01"
  ∧ month_key <$> newDate (VStr "2023-01-20") = Some "2023-01".
Proof.
  intros nd labels.
  destruct (month_labels_spec nd) as (Hkeys & Hsorted).
  split; [exact Hkeys |]. split; [exact Hsorted |]. split.
  { intros k. unfold byMonth. by rewrite fold_month_values. }
  split; [| by split].
  rewrite createVisualizations_unfold. fold nd.
  destruct (hasData data) eqn:Hd.
  - unfold visualization_rules.
    rewrite !app_assoc, List.filter_app, <- !app_assoc.
    rewrite (filter_none _ _ (no_box_before _ _ _ _ _ _)).
    unfold box_rule. cbn [andb app]. fold labels.
    by destruct (2 <=? List.length labels)%nat.
  - destruct data; [done | discriminate].
Qed.

End MonthlyBoxPlot.

(** ** What the scoring and the time filter compute *)

(** The score is the sum of five terms; the first one alone is a
    disjunction of its title test and its intent test. *)
Lemma score_terms (viz : ChartSpec) (q : string) :
  let title := toLowerCase (lay_title (viz_layout viz)) in
  score viz q
  = ((if test re_pressure title || test re_profile_q q then 3 else 0)
     + (if test re_salinity title && test re_wantsSalinity q then 2 else 0)
     + (if test re_temperature title && test re_wantsTemperature q then 2 else 0)
     + (if test re_time title && test re_wantsTime q then 3 else 0)
     + (if test re_surface_title title && test re_surface_q q then 2 else 0))%Z.
Proof.
  cbv zeta. unfold score. repeat case_match; reflexivity.
Qed.

(** The entries that survive line 462 are the time values, other than 0,
    of the rows whose TIME is truthy and parses. *)
Lemma times_spec `{Host} (nd : list row) (v : option (option Z)) :
  In v (times nd)
  ↔ ∃ (d : row) (t : Z),
      In d nd ∧ truthy (get d "TIME") = true
      ∧ newDate (get d "TIME") = Some t ∧ t ≠ 0%Z ∧ v = Some (Some t).
Proof.
  unfold times. rewrite List.filter_In, in_map_iff. split.
  - intros ((d & Hd & Hin) & Hb).
    destruct v as [[t |] |]; try discriminate Hb.
    unfold time_or_null in Hd.
    destruct (truthy (get d "TIME")) eqn:Ht; [| discriminate Hd].
    injection Hd as Hd. exists d, t. repeat split; try done.
    cbn in Hb. intros ->. discriminate Hb.
  - intros (d & t & Hin & Ht & Hd & Hne & ->). split.
    + exists d. unfold time_or_null. by rewrite Ht, Hd.
    + cbn. by apply negb_true_iff, Z.eqb_neq.
Qed.

(** ** Worked examples and the two defects *)

Lemma histogram_only_witness :
  Exists (fun v => kind_histogram v = true)
    (createVisualizations (H := plain_host) [profile_row] "Researcher" "histogram")
  ∧ Forall (fun v => kind_histogram v = true)
      (ranked (H := plain_host) [profile_row] "Researcher" "histogram").
Proof.
  assert (Exists (fun v => kind_histogram v = true)
            (createVisualizations (H := plain_host) [profile_row]
               "Researcher" "histogram")) as Hex.
  { apply Exists_cons_hd. reflexivity. }
  split; [exact Hex |].
  exact (proj2 (proj1 (histogram_only (H := plain_host) [profile_row]
                         "Researcher" "" "") Hex)).
Defined.

Section Examples.
Context `{Host}.

(** C1. The pressure term is a disjunction.  For the Researcher charts of
    two January rows and the intent "temperature over time", which matches
    no profile pattern, the temperature profile still receives the 3 points
    of the pressure term (score 5 where the specification's reading gives
    2), ties with "Temperature Over Time" and, being first in the input,
    is ranked before it. *)
Theorem pressure_term_without_intent :
  let q := "temperature over time" in
  let charts := createVisualizations january_rows "Researcher" q in
  titles charts = ["Temperature vs Pressure Profile";
                   "Salinity vs Pressure Profile"; "Temperature Over Time"]
  ∧ test re_wantsProfile q = false
  ∧ test re_profile_q q = false
  ∧ List.map (fun v => score v q) charts = [5; 3; 5]%Z
  ∧ List.map (fun v => score_spec v q) charts = [2; 0; 5]%Z
  ∧ titles (ranked january_rows "Researcher" q)
    = ["Temperature vs Pressure Profile"; "Temperature Over Time";
       "Salinity vs Pressure Profile"].
Proof. vm_compute. repeat split; reflexivity. Qed.

(** The converse half of the same disjunction: a profile intent adds the 3
    points to a chart whose title does not mention pressure. *)
Example pressure_term_without_title :
  let charts := createVisualizations january_rows "Researcher" "profile" in
  List.map (fun v => score v "profile") charts = [3; 3; 3]%Z
  ∧ List.map (fun v => score_spec v "profile") charts = [3; 3; 0]%Z.
Proof. vm_compute. split; reflexivity. Qed.

(** C5. The time span drops the epoch.  "1970-01-01" parses to the valid
    time value 0, which line 462 filters out as falsy: with a second row
    dated 2023-01-05 the summary's minimum is 2023-01-05 where the
    specification's reading gives the epoch, and alone the row yields no time
    span at all. *)
Theorem timeSpan_drops_epoch :
  newDate (VStr "1970-01-01") = Some 0%Z
  ∧ minTime <$> kpis epoch_rows = Some (Some (Some 1672876800000%Z))
  ∧ maxTime <$> kpis epoch_rows = Some (Some (Some 1672876800000%Z))
  ∧ timeSpan_spec (normalizedData epoch_rows) = Some (0%Z, 1672876800000%Z)
  ∧ minTime <$> kpis [measured_row "1970-01-01" 10%float] = Some None
  ∧ timeSpan_spec (normalizedData [measured_row "1970-01-01" 10%float])
    = Some (0%Z, 0%Z).
Proof. vm_compute. repeat split; reflexivity. Qed.

(** The box plot rule keeps the same row: its guard tests the parsed date
    for NaN, not for truth. *)
Example box_plot_keeps_epoch :
  List.map fst (byMonth (normalizedData epoch_rows)) = ["1970-01"; "2023-01"].
Proof. vm_compute. reflexivity. Qed.

(** C7. The box plot rule skips a row timed by the number 0.  Line 419
    tests [d.TIME] for truth where the time series and the heatmap (lines 176
    and 388) test it against null: a row with TIME 0 and a temperature has a
    non-null TIME that is a valid date of January 1970, yet it enters no
    group.  With a second row of January 2023 the specification's reading has
    two months and a box plot; the code has the single label "2023-01" and
    no box plot, while the time series of the same rows plots the epoch row.
    A row timed one day later is grouped as expected. *)
Theorem box_plot_skips_epoch_number :
  newDate (VNum 0%float) = Some 0%Z
  ∧ month_key 0 = "1970-01"
  ∧ List.map fst (byMonth_spec (normalizedData epoch_number_rows))
    = ["1970-01"; "2023-01"]
  ∧ byMonth (normalizedData epoch_number_rows) = [("2023-01", [12%float])]
  ∧ month_labels (normalizedData epoch_number_rows) = ["2023-01"]
  ∧ List.filter is_box (createVisualizations epoch_number_rows "Researcher" "")
    = []
  ∧ List.map (fun v => List.map tr_x (viz_data v))
      (List.filter
         (fun v => String.eqb (lay_title (viz_layout v)) "Temperature Over Time")
         (createVisualizations epoch_number_rows "Researcher" ""))
    = [[[DDate (Some 0%Z); DDate (Some 1672876800000%Z)]]]
  ∧ month_labels
      (normalizedData
         [timed_row 86400000%float 10%float; measured_row "2023-01-05" 12%float])
    = ["1970-01"; "2023-01"].
Proof. vm_compute. repeat split; reflexivity. Qed.

Example ts_gating_20_21 :
  List.length (List.filter is_ts
     (createVisualizations (List.repeat (measured_row "2023-01-05" 10%float) 20)
        "Researcher" "")) = 0
  ∧ List.length (List.filter is_ts
       (createVisualizations (List.repeat (measured_row "2023-01-05" 10%float) 21)
          "Researcher" "")) = 1.
Proof. vm_compute. split; reflexivity. Qed.

Example one_month_no_box_plot :
  byMonth (normalizedData january_rows) = [("2023-01", [10%float; 12%float])]
  ∧ List.filter is_box (createVisualizations january_rows "Student" "monthly") = [].
Proof. vm_compute. split; reflexivity. Qed.

Example two_months_box_plot :
  month_labels (normalizedData winter_rows) = ["2023-01"; "2023-02"]
  ∧ List.map (fun v => List.map (fun t => (tr_name t, tr_y t)) (viz_data v))
      (List.filter is_box (createVisualizations winter_rows "Student" ""))
    = [[("2023-01", [DVal (VNum 10%float); DVal (VNum 12%float)]);
        ("2023-02", [DVal (VNum 9%float)])]].
Proof. vm_compute. split; reflexivity. Qed.

End Examples.

(** * Further properties of the panel *)

(** ** The generator's output as a whole *)

Section GeneratorShape.
Context `{Host}.

(** At most one persona block runs. *)
Lemma persona_rules_cases (prof : string) (hT hS hTi : bool) (nd : list row) :
  persona_rules prof hT hS hTi nd =
    if String.eqb prof "researcher" then researcher_rules hT hS hTi nd
    else if String.eqb prof "fisherman" then fisherman_rules hT hS nd
    else if String.eqb prof "policymaker" then policymaker_rules nd
    else if String.eqb prof "student" then student_rules hT hS nd
    else [].
Proof.
  unfold persona_rules.
  destruct (String.eqb_spec prof "researcher") as [-> | _];
    repeat match goal with
      | |- context [String.eqb ?a ?b] =>
          destruct (String.eqb_spec a b) as [E | _];
          [try discriminate E; try subst |]
      end;
    cbn [app]; by rewrite ?app_nil_r.
Qed.

Lemma persona_rules_length (prof : string) (hT hS hTi : bool) (nd : list row) :
  (List.length (persona_rules prof hT hS hTi nd) ≤ 3)%nat.
Proof.
  rewrite persona_rules_cases.
  unfold researcher_rules, fisherman_rules, policymaker_rules, student_rules.
  rule_cases; cbn [List.length app]; lia.
Qed.

Lemma histVisuals_length (hT hS : bool) (nd : list row) :
  (List.length (histVisuals hT hS nd) ≤ 2)%nat.
Proof. unfold histVisuals. rule_cases; cbn [List.length app]; lia. Qed.

(** X1. However many rows come in, the generator returns at most eight
    charts: three from the persona block at most, two requested histograms,
    and the three advanced charts. *)
Theorem createVisualizations_length (data : list row) (profession intent : string) :
  (List.length (createVisualizations data profession intent) ≤ 8)%nat.
Proof.
  rewrite createVisualizations_unfold.
  destruct (hasData data); [| cbn; lia].
  unfold visualization_rules. rewrite !length_app.
  assert (List.length
            (histogram_override (test re_wantsHistogram (toLowerCase intent))
               true true (normalizedData data)
               (persona_rules (toLowerCase (profession_or_default profession))
                  true true true (normalizedData data))) ≤ 5)%nat as Hp.
  { unfold histogram_override.
    pose proof (persona_rules_length
                  (toLowerCase (profession_or_default profession))
                  true true true (normalizedData data)).
    pose proof (histVisuals_length true true (normalizedData data)).
    repeat case_match; try lia.
    rewrite unshift_all, length_app, length_rev. lia. }
  assert (List.length (ts_rule true true (normalizedData data)) ≤ 1)%nat
    by (unfold ts_rule; rule_cases; cbn; lia).
  assert (List.length (heatmap_rule true true (normalizedData data)) ≤ 1)%nat
    by (unfold heatmap_rule; rule_cases; cbn; lia).
  assert (List.length (box_rule true true (normalizedData data)) ≤ 1)%nat
    by (unfold box_rule; rule_cases; cbn; lia).
  lia.
Qed.

Lemma kind_isHistogram (v : ChartSpec) :
  kind_histogram v = true → isHistogram v = true.
Proof. unfold kind_histogram, isHistogram. by intros ->. Qed.

Lemma existsb_false_filter (vis : list ChartSpec) :
  existsb isHistogram vis = false → List.filter kind_histogram vis = [].
Proof.
  intros Hn. apply filter_none. apply List.Forall_forall. intros v Hv.
  destruct (kind_histogram v) eqn:Hk; [| done].
  assert (existsb isHistogram vis = true) as Ht.
  { apply existsb_exists. exists v. split; [done | by apply kind_isHistogram]. }
  congruence.
Qed.

Lemma persona_rules_histograms (prof : string) (hT hS hTi : bool) (nd : list row) :
  (List.length (List.filter kind_histogram (persona_rules prof hT hS hTi nd)) ≤ 2)%nat.
Proof.
  rewrite persona_rules_cases.
  unfold researcher_rules, fisherman_rules, policymaker_rules, student_rules.
  rule_cases; cbn [List.length List.filter app]; cbn; lia.
Qed.

Lemma advanced_not_histogram (hT hS hTi : bool) (nd : list row) :
  Forall (fun v => kind_histogram v = false)
    (ts_rule hT hS nd ++ heatmap_rule hT hTi nd ++ box_rule hT hTi nd).
Proof.
  repeat (apply Forall_app; split).
  - unfold ts_rule. each_chart ltac:(try reflexivity).
  - unfold heatmap_rule. each_chart ltac:(try reflexivity).
  - unfold box_rule. each_chart ltac:(try reflexivity).
Qed.

(** X2. The requested histograms are never added to histograms the persona
    block already produced: whatever the persona and the intent, the generated
    list holds at most two charts of kind histogram. *)
Theorem histograms_not_duplicated (data : list row) (profession intent : string) :
  (List.length
     (List.filter kind_histogram (createVisualizations data profession intent))
   ≤ 2)%nat.
Proof.
  rewrite createVisualizations_unfold.
  destruct (hasData data); [| cbn; lia].
  unfold visualization_rules.
  rewrite List.filter_app, (filter_none _ _ (advanced_not_histogram _ _ _ _)).
  rewrite app_nil_r.
  pose proof (persona_rules_histograms
                (toLowerCase (profession_or_default profession))
                true true true (normalizedData data)) as Hp.
  unfold histogram_override. repeat case_match; try done.
  rewrite unshift_all, List.filter_app, length_app.
  match goal with
  | E : negb (existsb isHistogram _) && _ = true |- _ =>
      apply andb_true_iff in E as [E _]; apply negb_true_iff in E;
      rewrite (existsb_false_filter _ E)
  end.
  cbn [List.length]. rewrite Nat.add_0_r.
  etransitivity; [apply List.filter_length_le |].
  rewrite length_rev. apply histVisuals_length.
Qed.

Lemma histVisuals_kind (hT hS : bool) (nd : list row) :
  Forall (fun v => isHistogram v = true) (histVisuals hT hS nd).
Proof. unfold histVisuals. each_chart ltac:(try reflexivity). Qed.

Lemma filter_nonempty {A : Type} (p : A → bool) (l : list A) :
  Exists (fun x => p x = true) l → longer_than 0 (List.filter p l) = true.
Proof.
  intros Hex. apply List.Exists_exists in Hex as (x & Hx & Hp).
  assert (In x (List.filter p l)) as Hin by (by apply List.filter_In).
  by destruct (List.filter p l).
Qed.

(** With a non-null temperature somewhere, a histogram request always
    builds the temperature histogram. *)
Lemma histVisuals_nonempty (hS : bool) (nd : list row) :
  Exists (fun d => is_null (get d "TEMP") = false) nd →
  longer_than 0 (histVisuals true hS nd) = true.
Proof.
  intros Hex. unfold histVisuals.
  assert (longer_than 0 (List.filter (fun d => nonnull "TEMP" d) nd) = true) as Hall.
  { apply filter_nonempty. eapply List.Exists_impl; [| exact Hex].
    intros d Hd. unfold nonnull. by rewrite Hd. }
  destruct (longer_than 10 (List.filter (fun d => near_surface d && nonnull "TEMP" d) nd))
    eqn:Hs.
  - assert (longer_than 0
              (List.filter (fun d => near_surface d && nonnull "TEMP" d) nd) = true) as H0.
    { unfold longer_than in *. apply Nat.ltb_lt in Hs. apply Nat.ltb_lt. lia. }
    by rewrite H0.
  - by rewrite Hall.
Qed.

Lemma wantsHistogram_nonempty (intent : string) :
  test re_wantsHistogram (toLowerCase intent) = true → String.eqb intent "" = false.
Proof. by destruct intent. Qed.

(** X3. When the intent asks for a histogram (the word histogram, hist, or
    bar chart) and some normalized row has a temperature, the ranked list is
    not empty and holds histograms only: the chart the panel focuses,
    [viz-0], exists and is a histogram. *)
Theorem histogram_request_served (data : list row) (profession intent : string) :
  test re_wantsHistogram (toLowerCase intent) = true →
  Exists (fun d => is_null (get d "TEMP") = false) (normalizedData data) →
  ∃ (v : ChartSpec) (rest : list ChartSpec),
    ranked data profession intent = v :: rest
    ∧ Forall (fun c => kind_histogram c = true) (v :: rest).
Proof.
  intros Hw Hex.
  assert (hasData data = true) as Hd.
  { destruct data; [| done]. by apply List.Exists_nil in Hex. }
  pose proof (generated_kind data profession intent) as Hkind.
  assert (Exists (fun c => isHistogram c = true)
            (createVisualizations data profession intent)) as Hhist.
  { rewrite createVisualizations_unfold, Hd. unfold visualization_rules.
    apply List.Exists_app. left. unfold histogram_override. rewrite Hw.
    destruct (existsb isHistogram
                (persona_rules (toLowerCase (profession_or_default profession))
                   true true true (normalizedData data))) eqn:Hp.
    - cbn [negb andb]. apply List.Exists_exists.
      apply existsb_exists in Hp as (c & Hc & Hi). by exists c.
    - pose proof (histVisuals_nonempty true _ Hex) as Hne. rewrite Hne.
      cbn [negb andb]. rewrite unshift_all. apply List.Exists_app. left.
      pose proof (histVisuals_kind true true (normalizedData data)) as Hk.
      destruct (histVisuals true true (normalizedData data)) as [| h hv]; [done |].
      apply List.Exists_exists. exists h. split.
      + apply in_rev. rewrite rev_involutive. by left.
      + by apply Forall_inv in Hk. }
  pose proof (rank_perm (createVisualizations data profession intent) intent) as Hperm.
  assert (ranking_input (createVisualizations data profession intent) intent
          = List.filter isHistogram (createVisualizations data profession intent)) as Hin.
  { unfold ranking_input, histogram_filter.
    rewrite Hw, (wantsHistogram_nonempty _ Hw), (filter_nonempty _ _ Hhist).
    destruct (createVisualizations data profession intent); [| done].
    by apply List.Exists_nil in Hhist. }
  rewrite Hin in Hperm. fold (ranked data profession intent) in Hperm.
  assert (Forall (fun c => kind_histogram c = true) (ranked data profession intent)) as Hall.
  { rewrite Hperm, (filter_ext_Forall _ _ _ Hkind). apply filter_all. }
  destruct (ranked data profession intent) as [| v rest] eqn:Hr.
  - apply Permutation_nil in Hperm.
    pose proof (filter_nonempty _ _ Hhist) as Hne. by rewrite Hperm in Hne.
  - by exists v, rest.
Qed.

Ltac aligned_trace :=
  cbn [forallb viz_data aligned tr_type tr_x tr_y tr_z andb app];
  unfold column; rewrite ?length_map; cbn [List.length];
  rewrite ?Nat.eqb_refl; try done.

Lemma box_traces_aligned (m : list (string * list float)) (labels : list string) :
  forallb aligned (List.map (box_trace m) labels) = true.
Proof. induction labels as [| l labels IH]; [done | exact IH]. Qed.

(** X4. Every trace the generator emits is well formed for plotting: a
    scatter or bar trace has as many [x] as [y] entries, and the density
    contour of the heatmap as many [z] entries as well. *)
Theorem traces_aligned (data : list row) (profession intent : string) :
  Forall (fun v => forallb aligned (viz_data v) = true)
    (createVisualizations data profession intent).
Proof.
  rewrite createVisualizations_unfold.
  destruct (hasData data); [| constructor].
  apply visualization_rules_Forall.
  - apply persona_rules_Forall.
    + unfold researcher_rules. each_chart aligned_trace.
    + unfold fisherman_rules. each_chart aligned_trace.
    + unfold policymaker_rules. each_chart aligned_trace.
    + unfold student_rules. each_chart aligned_trace.
  - unfold histVisuals. each_chart aligned_trace.
  - unfold ts_rule. each_chart aligned_trace.
  - unfold heatmap_rule. each_chart aligned_trace.
  - unfold box_rule. each_chart ltac:(try apply box_traces_aligned; try done).
Qed.

Ltac not_heatmap := try done; try (intros Hh; cbn in Hh; discriminate Hh).

(** X5. The heatmap is bounded: a generated chart of type heatmap plots
    more than 20 and at most 5000 points, however many rows qualify. *)
Theorem heatmap_bounded (data : list row) (profession intent : string) :
  Forall
    (fun v =>
       is_heatmap v = true →
       Forall (fun t => (20 < List.length (tr_x t) ≤ 5000)%nat) (viz_data v))
    (createVisualizations data profession intent).
Proof.
  rewrite createVisualizations_unfold.
  destruct (hasData data); [| constructor].
  apply visualization_rules_Forall.
  - apply persona_rules_Forall.
    + unfold researcher_rules. each_chart not_heatmap.
    + unfold fisherman_rules. each_chart not_heatmap.
    + unfold policymaker_rules. each_chart not_heatmap.
    + unfold student_rules. each_chart not_heatmap.
  - unfold histVisuals. each_chart not_heatmap.
  - unfold ts_rule. each_chart not_heatmap.
  - unfold heatmap_rule. cbn [andb].
    match goal with
    | |- context [longer_than 20 ?td] => destruct (longer_than 20 td) eqn:Hlen
    end; [| constructor].
    constructor; [| constructor]. intros _. cbn [viz_data].
    constructor; [| constructor]. cbn [tr_x]. rewrite length_map.
    unfold longer_than in Hlen. apply Nat.ltb_lt in Hlen.
    split; [exact Hlen |]. rewrite length_firstn. lia.
  - unfold box_rule. each_chart not_heatmap.
Qed.

Lemma finite_or_zero_finite (v : float) :
  PrimFloat.is_finite (finite_or_zero v) = true.
Proof.
  unfold finite_or_zero. by destruct (PrimFloat.is_finite v) eqn:E.
Qed.

Lemma histogram_override_filter (p : ChartSpec → bool) (w hT hS : bool)
    (nd : list row) (vis : list ChartSpec) :
  Forall (fun v => p v = false) (histVisuals hT hS nd) →
  List.filter p (histogram_override w hT hS nd vis) = List.filter p vis.
Proof.
  intros Hh. unfold histogram_override. repeat case_match; try done.
  rewrite unshift_all, List.filter_app.
  rewrite (filter_none p (rev _)); [done |].
  by apply Forall_rev.
Qed.

(** X6. For the Policymaker the summary bar chart is never gated: every
    non-empty dataset yields exactly one bar chart, "Summary Indicators",
    whose three bars are the record count and the two averages, and both
    averages are finite numbers even when no row has a temperature or a
    salinity. *)
Theorem policymaker_summary (data : list row) (profession intent : string) :
  hasData data = true →
  toLowerCase (profession_or_default profession) = "policymaker" →
  let a := finite_or_zero (average "TEMP" (normalizedData data)) in
  let s := finite_or_zero (average "PSAL" (normalizedData data)) in
  ∃ (v : ChartSpec) (t : Trace),
    List.filter is_bar (createVisualizations data profession intent) = [v]
    ∧ lay_title (viz_layout v) = "Summary Indicators"
    ∧ viz_data v = [t]
    ∧ tr_y t = [DVal (VNum (float_of_nat (List.length data)));
                DVal (VNum a); DVal (VNum s)]
    ∧ PrimFloat.is_finite a = true ∧ PrimFloat.is_finite s = true.
Proof.
  intros Hd Hp a s.
  rewrite createVisualizations_unfold, Hd, Hp. unfold visualization_rules.
  rewrite persona_rules_cases. cbn [String.eqb Ascii.eqb Bool.eqb].
  rewrite !List.filter_app.
  rewrite histogram_override_filter
    by (unfold histVisuals; each_chart ltac:(try reflexivity)).
  rewrite (filter_none is_bar (ts_rule _ _ _))
    by (unfold ts_rule; each_chart ltac:(try reflexivity)).
  rewrite (filter_none is_bar (heatmap_rule _ _ _))
    by (unfold heatmap_rule; each_chart ltac:(try reflexivity)).
  rewrite (filter_none is_bar (box_rule _ _ _))
    by (unfold box_rule; each_chart ltac:(try reflexivity)).
  unfold policymaker_rules. cbn [List.filter is_bar viz_type plot_type_eqb app].
  eexists _, _. split; [reflexivity |].
  cbn [viz_layout lay_title viz_data tr_y].
  assert (List.length (normalizedData data) = List.length data) as ->
    by (by rewrite normalizedData_map, length_map).
  repeat split; apply finite_or_zero_finite.
Qed.

Lemma fisherman_surface (nd : list row) (hS : bool) (d : row) :
  In d nd →
  truthy (get d "PRES") = false →
  is_null (get d "TEMP") = false →
  ∃ (v : ChartSpec) (t : Trace) (rest : list ChartSpec),
    fisherman_rules true hS nd = v :: rest
    ∧ viz_type v = histogram
    ∧ lay_title (viz_layout v) = "Surface Temperature Distribution (0-10 dbar)"
    ∧ viz_data v = [t]
    ∧ In (DVal (get d "TEMP")) (tr_x t).
Proof.
  intros Hin Hp Ht. unfold fisherman_rules.
  assert (In d (List.filter (fun d => near_surface d && nonnull "TEMP" d) nd)) as Hd.
  { apply List.filter_In. split; [done |].
    unfold near_surface, js_or, nonnull. by rewrite Hp, Ht. }
  destruct (List.filter (fun d => near_surface d && nonnull "TEMP" d) nd)
    as [| d0 surface] eqn:Hs; [done |].
  cbn [longer_than List.length Nat.ltb Nat.leb app].
  eexists _, _, _. split; [reflexivity |].
  cbn [viz_layout lay_title viz_data tr_x viz_type]. repeat split.
  unfold column. apply in_map_iff. by exists d.
Qed.

(** X7. A row without a usable pressure (null, missing, 0) counts as a
    surface row: for the Fisherman, a normalized row with a temperature and
    no pressure makes the surface temperature histogram the first generated
    chart, whatever the intent, and contributes its temperature to it. *)
Theorem fisherman_surface_default (data : list row) (profession intent : string)
    (d : row) :
  toLowerCase (profession_or_default profession) = "fisherman" →
  In d (normalizedData data) →
  truthy (get d "PRES") = false →
  is_null (get d "TEMP") = false →
  ∃ (v : ChartSpec) (t : Trace) (rest : list ChartSpec),
    createVisualizations data profession intent = v :: rest
    ∧ lay_title (viz_layout v) = "Surface Temperature Distribution (0-10 dbar)"
    ∧ viz_data v = [t]
    ∧ In (DVal (get d "TEMP")) (tr_x t).
Proof.
  intros Hprof Hin Hp Ht.
  assert (hasData data = true) as Hd by (destruct data; [destruct Hin | done]).
  destruct (fisherman_surface _ true d Hin Hp Ht)
    as (v & t & rest & Hf & Hk & Htitle & Hdata & Hx).
  rewrite createVisualizations_unfold, Hd, Hprof. unfold visualization_rules.
  rewrite persona_rules_cases. cbn [String.eqb Ascii.eqb Bool.eqb].
  rewrite Hf.
  assert (existsb isHistogram (v :: rest) = true) as Hex.
  { cbn [existsb]. unfold isHistogram. by rewrite Hk. }
  unfold histogram_override. rewrite Hex. cbn [negb andb].
  exists v, t. eexists. split; [| done].
  destruct (test re_wantsHistogram (toLowerCase intent)); reflexivity.
Qed.

End GeneratorShape.

(** ** Ranking once more *)

Section SortedInput.
Context {A : Type} (cmp : A → A → Z).

(** Sorting a sorted list changes nothing. *)
Lemma js_sort_sorted_id (l : list A) :
  StronglySorted (fun a b => (cmp a b <= 0)%Z) l → js_sort cmp l = l.
Proof.
  induction 1 as [| x l Hl IH Hx]; [done |].
  cbn [js_sort]. rewrite IH.
  destruct l as [| y l]; [done |].
  cbn [sort_insert]. apply Forall_inv in Hx.
  by apply Z.leb_le in Hx as ->.
Qed.

End SortedInput.

Lemma filter_all_id {A : Type} (p : A → bool) (l : list A) :
  Forall (fun x => p x = true) l → List.filter p l = l.
Proof.
  induction 1 as [| x l Hx _ IH]; [done |].
  cbn [List.filter]. by rewrite Hx, IH.
Qed.

Lemma histogram_filter_uniform (visualizations : list ChartSpec) (q : string) :
  test re_wantsHistogram q = true →
  Forall (fun v => isHistogram v = true) (histogram_filter visualizations q)
  ∨ Forall (fun v => isHistogram v = false) (histogram_filter visualizations q).
Proof.
  intros Hw. unfold histogram_filter. rewrite Hw.
  destruct (List.filter isHistogram visualizations) as [| h hs] eqn:Hf.
  - right. cbn. apply List.Forall_forall. intros v Hv.
    destruct (isHistogram v) eqn:Hi; [| done].
    assert (In v (List.filter isHistogram visualizations)) as Hin
      by (by apply List.filter_In).
    by rewrite Hf in Hin.
  - left. cbn. rewrite <- Hf. apply filter_all.
Qed.

Lemma histogram_filter_fixed (l : list ChartSpec) (q : string) :
  Forall (fun v => isHistogram v = true) l
  ∨ Forall (fun v => isHistogram v = false) l →
  histogram_filter l q = l.
Proof.
  unfold histogram_filter. intros [Hall | Hnone]; case_match; try done.
  - rewrite (filter_all_id _ _ Hall). by case_match.
  - by rewrite (filter_none _ _ Hnone).
Qed.

(** X8. Ranking is idempotent: ranking an already ranked list with the
    same intent returns it unchanged, so re-rendering the panel never
    reshuffles the tabs. *)
Theorem rank_idempotent (visualizations : list ChartSpec) (intent : string) :
  rank (rank visualizations intent) intent = rank visualizations intent.
Proof.
  rewrite (rank_sort visualizations).
  destruct (longer_than 0 visualizations && negb (String.eqb intent "")) eqn:E.
  - unfold ranking_input. rewrite E.
    set (q := toLowerCase intent).
    set (cmp := fun a b => (score b q - score a q)%Z).
    set (input := histogram_filter visualizations q).
    rewrite rank_sort. case_match; [| done].
    unfold ranking_input. rewrite H. fold q. fold cmp.
    assert (histogram_filter (js_sort cmp input) q = js_sort cmp input) as ->.
    { destruct (test re_wantsHistogram q) eqn:Hw.
      - apply histogram_filter_fixed.
        destruct (histogram_filter_uniform visualizations q Hw) as [Ha | Hn];
          [left | right]; by rewrite js_sort_perm.
      - unfold histogram_filter. by rewrite Hw. }
    apply js_sort_sorted_id.
    apply js_sort_sorted; unfold cmp; intros; lia.
  - rewrite rank_sort. by rewrite E.
Qed.

Lemma StronglySorted_lookup {A : Type} (R : A → A → Prop) (l : list A)
    (i j : nat) (a b : A) :
  StronglySorted R l → (i < j)%nat → l !! i = Some a → l !! j = Some b → R a b.
Proof.
  intros Hs. revert i j. induction Hs as [| x l Hl IH Hx]; intros i j Hij Hi Hj.
  - done.
  - destruct j as [| j]; [lia |]. cbn in Hj. destruct i as [| i].
    + cbn in Hi. injection Hi as <-.
      rewrite List.Forall_forall in Hx. apply Hx.
      apply list_elem_of_In. by eapply list_elem_of_lookup_2.
    + cbn in Hi. apply (IH i j); [lia | done | done].
Qed.

(** X9. With a non-empty intent the ranked list is in order of decreasing
    score: a chart never precedes one of strictly higher score. *)
Theorem ranked_by_score (visualizations : list ChartSpec) (intent : string)
    (i j : nat) (a b : ChartSpec) :
  String.eqb intent "" = false →
  (i < j)%nat →
  rank visualizations intent !! i = Some a →
  rank visualizations intent !! j = Some b →
  (score b (toLowerCase intent) <= score a (toLowerCase intent))%Z.
Proof.
  intros Hne Hij Hi Hj.
  destruct visualizations as [| v vs].
  { unfold rank in Hi. cbn in Hi. done. }
  assert (longer_than 0 (v :: vs) && negb (String.eqb intent "") = true) as E
    by (by rewrite Hne).
  pose proof (rank_sorted (v :: vs) intent E) as Hs.
  pose proof (StronglySorted_lookup _ _ i j a b Hs Hij Hi Hj) as Hab.
  cbn in Hab. lia.
Qed.

(** X10. A score is an integer between 0 and 12. *)
Theorem score_range (viz : ChartSpec) (q : string) :
  (0 <= score viz q <= 12)%Z.
Proof.
  pose proof (score_terms viz q) as Hs. cbv zeta in Hs. rewrite Hs.
  repeat case_match; lia.
Qed.

(** ** Normalization once more *)

(** X11. Normalization only adds keys: the columns of a normalized row are
    those of the raw row together with the four canonical names. *)
Theorem normalize_row_dom (r : row) :
  dom (normalize_row r)
  = dom r ∪ {["TEMP"]} ∪ {["PSAL"]} ∪ {["PRES"]} ∪ {["TIME"]}.
Proof.
  apply set_eq. intros k.
  rewrite !elem_of_union, !elem_of_singleton, !elem_of_dom, normalize_row_lookup.
  destruct (canonical k) eqn:Hc; cbn [andb].
  - pose proof (canonical_cases k Hc) as Hk.
    destruct (is_undefined (get r k)) eqn:Hu.
    + split; [tauto | by eexists].
    + split; [tauto | intros _].
      unfold get in Hu. by destruct (r !! k).
  - pose proof (canonical_false k Hc) as (H1 & H2 & H3 & H4).
    split; [tauto |]. intros [[[[? | ?] | ?] | ?] | ?]; done.
Qed.

(** X12. Alias priority.  A canonical field the raw row leaves undefined is
    filled from the first of its alias columns, in source order, that holds
    something other than null or undefined; an alias set to null is passed
    over, and with no usable alias the field is null. *)
Theorem alias_priority (r : row) (k : string) :
  canonical k = true →
  is_undefined (get r k) = true →
  get (normalize_row r) k = first_set r (aliases k).
Proof.
  intros Hc Hu. rewrite normalize_row_get, Hc, Hu. cbn [andb].
  apply canonical_cases in Hc.
  destruct Hc as [-> | [-> | [-> | ->]]];
    unfold alias_value, aliases; cbn [String.eqb Ascii.eqb Bool.eqb first_set];
    unfold nullish;
    repeat match goal with
      | |- context [is_nullish (get r ?a)] =>
          let E := fresh "E" in
          destruct (get r a) eqn:E; cbn [is_nullish is_undefined is_null orb]
      end; reflexivity.
Qed.

(** ** The KPI summary once more *)

Lemma fold_min_max (ts : list Z) (t0 : Z) :
  (fold_left Z.min ts t0 <= t0 <= fold_left Z.max ts t0)%Z
  ∧ In (fold_left Z.min ts t0) (t0 :: ts)
  ∧ In (fold_left Z.max ts t0) (t0 :: ts).
Proof.
  revert t0. induction ts as [| t ts IH]; intros t0; cbn [fold_left].
  - repeat split; try lia; by left.
  - destruct (IH (Z.min t0 t)) as (Hmin & Hinmin & _).
    destruct (IH (Z.max t0 t)) as (Hmax & _ & Hinmax).
    repeat split; try lia.
    + destruct Hinmin as [E | Hin]; [| by right; right].
      rewrite <- E. destruct (Z.min_spec t0 t) as [[_ ->] | [_ ->]];
        [by left | by right; left].
    + destruct Hinmax as [E | Hin]; [| by right; right].
      rewrite <- E. destruct (Z.max_spec t0 t) as [[_ ->] | [_ ->]];
        [by right; left | by left].
Qed.

(** On the entries that pass [filter(Boolean)], [Math.min] and [Math.max]
    are the plain extremes. *)
Lemma Math_fold_numbers (f : Z → Z → Z) (v : option (option Z))
    (l : list (option (option Z))) :
  Forall (fun x => Boolean x = true) (v :: l) →
  ∃ (t0 : Z) (ts : list Z),
    v = Some (Some t0) ∧ l = List.map (fun t => Some (Some t)) ts
    ∧ Math_fold f v l = Some (fold_left f ts t0).
Proof.
  intros Hall. apply Forall_cons in Hall as [Hv Hl].
  destruct v as [[t0 |] |]; try discriminate Hv. clear Hv.
  unfold Math_fold. cbn [time_number].
  revert t0. induction Hl as [| x l Hx _ IH]; intros t0.
  - exists t0, []. done.
  - destruct x as [[t |] |]; try discriminate Hx.
    cbn [fold_left time_number].
    destruct (IH (f t0 t)) as (t0' & ts & E0 & -> & Hf).
    injection E0 as <-.
    exists t0, (t :: ts). done.
Qed.

Section KPIProperties.
Context `{Host}.

(** X13. The time span is never inverted.  When the summary has both
    dates, the minimum is not after the maximum and each is the time of an
    entry that passed the filter of line 462; the two dates are null
    together, exactly when no entry passed. *)
Theorem time_span_ordered (data : list row) (k : KPISummary) :
  kpis data = Some k →
  (minTime k = None ↔ times (normalizedData data) = [])
  ∧ (maxTime k = None ↔ times (normalizedData data) = [])
  ∧ (∀ a b : Z,
       minTime k = Some (Some a) → maxTime k = Some (Some b) →
       (a <= b)%Z
       ∧ In (Some (Some a)) (times (normalizedData data))
       ∧ In (Some (Some b)) (times (normalizedData data))).
Proof.
  unfold kpis. destruct (hasData data); [| done].
  cbn [negb]. intros [= <-]. cbn [minTime maxTime].
  destruct (times (normalizedData data)) as [| v l] eqn:Ht.
  - repeat split; try done.
  - split; [done |]. split; [done |]. intros a b Ha Hb.
    assert (Forall (fun x => Boolean x = true) (v :: l)) as Hall.
    { rewrite <- Ht. unfold times. apply filter_all. }
    destruct (Math_fold_numbers Z.min v l Hall) as (t0 & ts & -> & -> & Hmin).
    destruct (Math_fold_numbers Z.max _ _ Hall) as (t0' & ts' & E0 & Es & Hmax).
    injection E0 as <-.
    assert (ts' = ts) as ->.
    { clear -Es. revert ts' Es. induction ts as [| t ts IH]; intros [| t' ts'] E;
        try done. cbn in E. injection E as -> E. f_equal. by apply IH. }
    rewrite Hmin in Ha. rewrite Hmax in Hb.
    unfold date_of_number in Ha, Hb.
    injection Ha as Ha. injection Hb as Hb.
    repeat case_match; try done.
    injection Ha as <-. injection Hb as <-.
    destruct (fold_min_max ts t0) as (Hle & Hinmin & Hinmax).
    split; [lia |].
    change (Some (Some t0) :: List.map (fun t => Some (Some t)) ts)
      with (List.map (fun t => Some (Some t)) (t0 :: ts)).
    split; apply in_map_iff; eauto.
Qed.

(** X14. Rows without a valid temperature do not dilute the average: adding
    or removing a row whose normalized TEMP is null, missing or NaN leaves
    the summary's average temperature unchanged (the record count changes);
    likewise for salinity. *)
Theorem average_ignores_invalid (l1 l2 : list row) (r : row) :
  (valid_number (get (normalize_row r) "TEMP") = false →
   kpis (l1 ++ r :: l2) ≫= avgTemp = kpis (l1 ++ l2) ≫= avgTemp)
  ∧ (valid_number (get (normalize_row r) "PSAL") = false →
     kpis (l1 ++ r :: l2) ≫= avgSal = kpis (l1 ++ l2) ≫= avgSal).
Proof.
  assert (∀ k : string,
            valid_number (get (normalize_row r) k) = false →
            List.filter valid_number
              (List.map (fun d => get d k) (normalizedData (l1 ++ r :: l2)))
            = List.filter valid_number
                (List.map (fun d => get d k) (normalizedData (l1 ++ l2)))) as Hsame.
  { intros k Hk. rewrite !normalizedData_map, !List.map_app, !List.filter_app.
    cbn [List.map List.filter]. by rewrite Hk. }
  assert (hasData (l1 ++ r :: l2) = true) as Hd by (by destruct l1).
  split; intros Hk; unfold kpis; rewrite Hd; cbn [negb mbind option_bind];
    rewrite (Hsame _ Hk);
    (destruct (hasData (l1 ++ l2)) eqn:Hd'; cbn [negb mbind option_bind];
     [done |]);
    destruct l1, l2; try discriminate Hd'; reflexivity.
Qed.

End KPIProperties.

(** ** The data table *)

Lemma append_assoc (a b c : string) :
  ((a ++ b) ++ c)%string = (a ++ b ++ c)%string.
Proof.
  induction a as [| x a IH]; [done |].
  by rewrite !append_String, IH.
Qed.

Lemma prefix_spec (n hay : string) :
  String.prefix n hay = true ↔ ∃ s : string, hay = (n ++ s)%string.
Proof.
  revert hay. induction n as [| c n IH]; intros hay.
  - split; [intros _; by exists hay | by destruct hay].
  - destruct hay as [| d hay]; cbn [String.prefix].
    + split; [done | intros (s & Hs); by rewrite append_String in Hs].
    + destruct (ascii_dec c d) as [-> | Hne].
      * rewrite IH. split; intros (s & Hs); exists s.
        -- by rewrite append_String, Hs.
        -- rewrite append_String in Hs. by injection Hs.
      * split; [done |]. intros (s & Hs). rewrite append_String in Hs.
        injection Hs as Hcd _. by symmetry in Hcd.
Qed.

(** [includes] is the substring relation. *)
Lemma includes_spec (hay n : string) :
  includes hay n = true ↔ ∃ p s : string, hay = (p ++ n ++ s)%string.
Proof.
  induction hay as [| c hay IH]; cbn [includes].
  - rewrite orb_false_r, prefix_spec. split.
    + intros (s & Hs). by exists "", s.
    + intros (p & s & Hs). destruct p; [by exists s |].
      by rewrite append_String in Hs.
  - rewrite orb_true_iff, prefix_spec, IH. split.
    + intros [(s & Hs) | (p & s & Hs)].
      * by exists "", s.
      * exists (String c p), s. by rewrite append_String, Hs.
    + intros (p & s & Hs). destruct p as [| d p].
      * left. by exists s.
      * right. rewrite append_String in Hs. injection Hs as _ Hs. by exists p, s.
Qed.

Lemma toLowerCase_empty (s : string) :
  String.eqb (toLowerCase s) "" = String.eqb s "".
Proof. by destruct s. Qed.

Lemma filter_sublist_impl {A : Type} (p q : A → bool) (l : list A) :
  (∀ x, p x = true → q x = true) →
  sublist (List.filter p l) (List.filter q l).
Proof.
  intros Hpq. induction l as [| x l IH]; [done |].
  cbn [List.filter]. destruct (p x) eqn:Hp.
  - rewrite (Hpq x Hp). by constructor.
  - destruct (q x); [by constructor | done].
Qed.

Lemma filter_sublist {A : Type} (p : A → bool) (l : list A) :
  sublist (List.filter p l) l.
Proof.
  induction l as [| x l IH]; [done |].
  cbn [List.filter]. destruct (p x); by constructor.
Qed.

Section TableProperties.
Context `{Host}.

(** X15. The table never shows more than 100 rows; the rows shown are rows
    of the data, in their original order, and each of them passes the
    filter; with an empty filter they are the first 100 rows. *)
Theorem table_rows_sound (visibleColumns : list string) (filterText : string)
    (data : list row) :
  (List.length (table_rows visibleColumns filterText data) ≤ 100)%nat
  ∧ sublist (table_rows visibleColumns filterText data) data
  ∧ Forall (fun r => row_shown visibleColumns filterText r = true)
      (table_rows visibleColumns filterText data)
  ∧ table_rows visibleColumns "" data = firstn 100 data.
Proof.
  unfold table_rows. repeat split.
  - rewrite length_firstn. lia.
  - etransitivity; [| apply filter_sublist].
    apply sublist_take.
  - apply Forall_take, filter_all.
  - f_equal. apply filter_all_id. by apply List.Forall_forall.
Qed.

(** X16. The filter is case-insensitive in the filter text: two texts that
    differ only in letter case select the same rows. *)
Theorem table_filter_case (visibleColumns : list string) (f1 f2 : string)
    (data : list row) :
  toLowerCase f1 = toLowerCase f2 →
  table_rows visibleColumns f1 data = table_rows visibleColumns f2 data.
Proof.
  intros Hf. unfold table_rows. f_equal.
  apply List.filter_ext. intros r. unfold row_shown.
  rewrite <- (toLowerCase_empty f1), <- (toLowerCase_empty f2).
  by rewrite Hf.
Qed.

(** X17. Narrowing an ASCII filter never brings a row back: when the filter
    text is ASCII, every row that matches it also matches each of its
    substrings, so the rows matching the longer text are among the rows
    matching the shorter one.  On ASCII text lower-casing works letter by
    letter, which is what the proof uses of it; outside ASCII it depends on
    the context of a letter and the property is not claimed. *)
Theorem table_filter_monotone (visibleColumns : list string) (a f b : string)
    (data : list row) :
  ascii_text (a ++ f ++ b)%string = true →
  sublist
    (List.filter (row_shown visibleColumns (a ++ f ++ b)%string) data)
    (List.filter (row_shown visibleColumns f) data).
Proof.
  intros _.
  apply filter_sublist_impl. intros r. unfold row_shown.
  destruct (String.eqb f "") eqn:Hf; [done |].
  destruct (String.eqb (a ++ f ++ b)%string "") eqn:Hafb.
  - apply String.eqb_eq in Hafb. destruct a; [| done].
    rewrite append_empty in Hafb. destruct f; done.
  - rewrite !toLowerCase_app, !includes_spec.
    intros (p & s & ->).
    exists (p ++ toLowerCase a)%string, (toLowerCase b ++ s)%string.
    by rewrite !append_assoc.
Qed.

End TableProperties.

(** X18. Switching a column off removes it and nothing else, keeping the
    order of the others; switching a hidden column on and off again restores
    the list, and switching it on keeps the list free of repetitions. *)
Theorem toggleColumn_round_trip (col : string) (prev : list string) :
  ¬ In col (toggleColumn false col prev)
  ∧ (∀ c, c ≠ col → (In c (toggleColumn false col prev) ↔ In c prev))
  ∧ sublist (toggleColumn false col prev) prev
  ∧ (¬ In col prev →
     toggleColumn false col (toggleColumn true col prev) = prev
     ∧ (List.NoDup prev → List.NoDup (toggleColumn true col prev))).
Proof.
  unfold toggleColumn. split; [| split; [| split]].
  - intros Hc. apply List.filter_In in Hc as [_ Hc].
    by rewrite String.eqb_refl in Hc.
  - intros c Hne. rewrite List.filter_In. split; [tauto |].
    intros Hc. split; [done |]. by apply negb_true_iff, String.eqb_neq.
  - apply filter_sublist.
  - intros Hnot.
    assert (List.filter (fun c => negb (String.eqb c col)) prev = prev) as Hkeep.
    { apply filter_all_id. apply List.Forall_forall. intros c Hc.
      apply negb_true_iff, String.eqb_neq. by intros ->. }
    split.
    + rewrite List.filter_app, Hkeep. cbn [List.filter].
      by rewrite String.eqb_refl, app_nil_r.
    + intros Hnd. apply NoDup_ListNoDup, NoDup_app. repeat split.
      * by apply NoDup_ListNoDup.
      * intros c Hc Hc'. apply list_elem_of_In in Hc.
        apply list_elem_of_singleton in Hc'. by subst.
      * apply NoDup_singleton.
Qed.

(** ** The live float tracker *)

Lemma strict_eq_undefined (a : value) :
  strict_eq a VUndef = true → a = VUndef.
Proof. by destruct a. Qed.

Section TrackerProperties.
Context `{Host}.

Lemma track_other (st : Tracker) (r : row) (k : string) :
  float_key r ≠ k →
  get (lastCycles (track st r)) k = get (lastCycles st) k.
Proof.
  intros Hne. unfold track. repeat case_match; cbn [lastCycles]; try done;
    by rewrite get_insert_ne.
Qed.

Lemma track_same (st : Tracker) (r : row) :
  get (lastCycles (track st r)) (float_key r) = get r "cycle_number"
  ∨ strict_eq (get r "cycle_number") (get (lastCycles (track st r)) (float_key r))
    = true.
Proof.
  unfold track.
  destruct (is_undefined (get (lastCycles st) (float_key r))) eqn:Hu;
    [left; cbn [lastCycles]; apply get_insert_eq |].
  destruct (strict_eq (get r "cycle_number") (get (lastCycles st) (float_key r)))
    eqn:He; cbn [negb].
  - by right.
  - left. cbn [lastCycles]. apply get_insert_eq.
Qed.

Lemma fold_track_other (rows : list row) (st : Tracker) (k : string) :
  Forall (fun r => float_key r ≠ k) rows →
  get (lastCycles (fold_left track rows st)) k = get (lastCycles st) k.
Proof.
  intros Hall. revert st. induction Hall as [| r rows Hr _ IH]; intros st; [done |].
  cbn [fold_left]. by rewrite IH, track_other.
Qed.

Lemma track_messages (st : Tracker) (r : row) :
  ∃ new : list Message,
    messages (track st r) = messages st ++ new
    ∧ (List.length new ≤ 1)%nat
    ∧ Forall (fun m => msg_role m = "assistant") new.
Proof.
  unfold track. repeat case_match; cbn [messages].
  - exists []. split; [by rewrite app_nil_r |]. split; [cbn; lia | constructor].
  - eexists [_]. split; [done |]. split; [cbn; lia | by repeat constructor].
  - exists []. split; [by rewrite app_nil_r |]. split; [cbn; lia | constructor].
Qed.

Lemma fold_track_last (l1 l2 : list row) (r : row) (st : Tracker) :
  Forall (fun r' => float_key r' ≠ float_key r) l2 →
  let v := get (lastCycles (fold_left track (l1 ++ r :: l2) st)) (float_key r) in
  v = get r "cycle_number" ∨ strict_eq (get r "cycle_number") v = true.
Proof.
  intros Hl2. cbv zeta. rewrite fold_left_app. cbn [fold_left].
  rewrite fold_track_other by done. apply track_same.
Qed.

(** X19. After a poll the tracker remembers, for every float among the
    rows, the cycle of the last row of that float (up to [===]); the entry
    of a float that is not among the rows is untouched. *)
Theorem tracker_records_last (l1 l2 : list row) (r : row) (st : Tracker)
    (k : string) :
  (Forall (fun r' => float_key r' ≠ float_key r) l2 →
   let v := get (lastCycles (fetchLatestFloats (l1 ++ r :: l2) st)) (float_key r) in
   v = get r "cycle_number" ∨ strict_eq (get r "cycle_number") v = true)
  ∧ (Forall (fun r' => float_key r' ≠ k) (l1 ++ r :: l2) →
     get (lastCycles (fetchLatestFloats (l1 ++ r :: l2) st)) k
     = get (lastCycles st) k).
Proof.
  unfold fetchLatestFloats. cbn [lastCycles]. split.
  - intros Hl2. by apply fold_track_last.
  - intros Hall. by apply fold_track_other.
Qed.

(** X20. A poll only appends to the chat: the earlier messages are kept in
    place, at most one assistant message is added per row, and the floats
    on the map become the rows of the poll. *)
Theorem tracker_appends (rows : list row) (st : Tracker) :
  ∃ new : list Message,
    messages (fetchLatestFloats rows st) = messages st ++ new
    ∧ (List.length new ≤ List.length rows)%nat
    ∧ Forall (fun m => msg_role m = "assistant") new
    ∧ liveFloats (fetchLatestFloats rows st) = rows.
Proof.
  unfold fetchLatestFloats. cbn [messages liveFloats].
  revert st. induction rows as [| r rows IH]; intros st; cbn [fold_left].
  - exists []. split; [by rewrite app_nil_r |].
    split; [cbn; lia |]. split; [constructor | done].
  - destruct (IH (track st r)) as (new & Hm & Hlen & Hrole & _).
    destruct (track_messages st r) as (new0 & Hm0 & Hlen0 & Hrole0).
    exists (new0 ++ new). rewrite Hm, Hm0, <- app_assoc, length_app.
    repeat split; try done; [cbn [List.length]; lia | by apply Forall_app].
Qed.

Lemma track_settled (st1 st : Tracker) (r : row) :
  (∀ k, get (lastCycles st) k = get (lastCycles st1) k) →
  settled st1 r →
  messages (track st r) = messages st
  ∧ ∀ k, get (lastCycles (track st r)) k = get (lastCycles st1) k.
Proof.
  intros Hsame [Hv Hrefl]. unfold track. rewrite Hsame.
  destruct (is_undefined (get (lastCycles st1) (float_key r))) eqn:Hu.
  - assert (get (lastCycles st1) (float_key r) = VUndef) as Hv1
      by (by destruct (get (lastCycles st1) (float_key r))).
    assert (get r "cycle_number" = VUndef) as Hc.
    { rewrite Hv1 in Hv. destruct Hv as [<- | Hv]; [done |].
      by apply strict_eq_undefined. }
    cbn [messages lastCycles]. split; [done |]. intros k. rewrite Hc.
    destruct (decide (float_key r = k)) as [<- | Hne].
    + by rewrite get_insert_eq, Hv1.
    + by rewrite get_insert_ne, Hsame.
  - assert (strict_eq (get r "cycle_number") (get (lastCycles st1) (float_key r))
            = true) as ->.
    { destruct Hv as [-> | Hv]; done. }
    done.
Qed.

Lemma fold_track_settled (st1 : Tracker) (rows : list row) (st : Tracker) :
  (∀ k, get (lastCycles st) k = get (lastCycles st1) k) →
  Forall (settled st1) rows →
  messages (fold_left track rows st) = messages st
  ∧ ∀ k, get (lastCycles (fold_left track rows st)) k = get (lastCycles st1) k.
Proof.
  intros Hsame Hall. revert st Hsame.
  induction Hall as [| r rows Hr _ IH]; intros st Hsame; [done |].
  cbn [fold_left].
  destruct (track_settled st1 st r Hsame Hr) as (Hm & Hl).
  destruct (IH (track st r) Hl) as (Hm' & Hl').
  split; [by rewrite Hm', Hm | done].
Qed.

Lemma NoDup_split_later (rows l1 l2 : list row) (r : row) :
  List.NoDup (List.map float_key rows) →
  rows = l1 ++ r :: l2 →
  Forall (fun r' => float_key r' ≠ float_key r) l2.
Proof.
  intros Hnd ->. rewrite List.map_app in Hnd. cbn [List.map] in Hnd.
  apply List.NoDup_remove_2 in Hnd.
  apply List.Forall_forall. intros r' Hr' Heq. apply Hnd.
  apply in_or_app. right. rewrite <- Heq. by apply in_map.
Qed.

(** X21. Polling unchanged data is silent: when every float occurs once
    among the rows and no cycle number is NaN, a second poll over the same
    rows posts no message and leaves every remembered cycle as it was. *)
Theorem tracker_repoll_silent (rows : list row) (st : Tracker) :
  List.NoDup (List.map float_key rows) →
  Forall (fun r => strict_eq (get r "cycle_number") (get r "cycle_number") = true)
    rows →
  messages (fetchLatestFloats rows (fetchLatestFloats rows st))
  = messages (fetchLatestFloats rows st)
  ∧ ∀ k, get (lastCycles (fetchLatestFloats rows (fetchLatestFloats rows st))) k
         = get (lastCycles (fetchLatestFloats rows st)) k.
Proof.
  intros Hnd Hrefl. unfold fetchLatestFloats. cbn [messages lastCycles].
  set (st1 := fold_left track rows st).
  set (st1' := {| lastCycles := lastCycles st1; messages := messages st1;
                  liveFloats := rows |}).
  apply (fold_track_settled st1 rows st1'); [done |].
  apply List.Forall_forall. intros r Hr.
  split; [| by rewrite List.Forall_forall in Hrefl; apply Hrefl].
  destruct (in_split _ _ Hr) as (l1 & l2 & Hrows).
  pose proof (NoDup_split_later rows l1 l2 r Hnd Hrows) as Hl2.
  pose proof (fold_track_last l1 l2 r st Hl2) as Hlast. cbv zeta in Hlast.
  rewrite <- Hrows in Hlast. fold st1 in Hlast.
  destruct Hlast as [-> | ->]; [by left | by right].
Qed.

(** X22. The first poll is silent: from a tracker that knows none of the
    floats among the rows (a fresh [lastCycles] map in particular), a poll in
    which every float occurs once posts no message. *)
Theorem tracker_first_poll_silent (rows : list row) (st : Tracker) :
  Forall (fun r => get (lastCycles st) (float_key r) = VUndef) rows →
  List.NoDup (List.map float_key rows) →
  messages (fetchLatestFloats rows st) = messages st.
Proof.
  unfold fetchLatestFloats. cbn [messages].
  intros Hnew. revert st Hnew.
  induction rows as [| r rows IH]; intros st Hnew Hnd; [done |].
  cbn [fold_left List.map] in *.
  apply Forall_cons in Hnew as [Hr Hnew].
  apply List.NoDup_cons_iff in Hnd as [Hnotin Hnd].
  assert (messages (track st r) = messages st) as Hm.
  { unfold track. by rewrite Hr. }
  rewrite IH, Hm; [done | | done].
  apply List.Forall_forall. intros r' Hr'.
  rewrite List.Forall_forall in Hnew.
  rewrite track_other; [by apply Hnew |].
  intros Heq. apply Hnotin. rewrite Heq. by apply in_map.
Qed.

End TrackerProperties.

(** ** Worked instances of the conditional properties *)

Lemma histogram_request_served_witness :
  ∃ (v : ChartSpec) (rest : list ChartSpec),
    ranked (H := plain_host) [profile_row] "Student" "show a hist" = v :: rest
    ∧ Forall (fun c => kind_histogram c = true) (v :: rest).
Proof.
  apply (histogram_request_served (H := plain_host) [profile_row] "Student"
           "show a hist"); [reflexivity |].
  apply Exists_cons_hd. reflexivity.
Defined.

Lemma policymaker_summary_witness :
  ∃ (v : ChartSpec) (t : Trace),
    List.filter is_bar
      (createVisualizations (H := plain_host) [surface_row] "POLICYMAKER" "")
    = [v]
    ∧ lay_title (viz_layout v) = "Summary Indicators"
    ∧ viz_data v = [t]
    ∧ tr_y t = [DVal (VNum 1%float); DVal (VNum 18.5%float); DVal (VNum 0%float)].
Proof.
  destruct (policymaker_summary (H := plain_host) [surface_row] "POLICYMAKER" ""
              eq_refl eq_refl) as (v & t & Hv & Htitle & Hdata & Hy & _).
  exists v, t. repeat split; done.
Defined.

Lemma fisherman_surface_default_witness :
  ∃ (v : ChartSpec) (t : Trace) (rest : list ChartSpec),
    createVisualizations (H := plain_host) [surface_row] "Fisherman" "" = v :: rest
    ∧ lay_title (viz_layout v) = "Surface Temperature Distribution (0-10 dbar)"
    ∧ viz_data v = [t]
    ∧ In (DVal (VNum 18.5%float)) (tr_x t).
Proof.
  apply (fisherman_surface_default (H := plain_host) [surface_row] "Fisherman" ""
           (normalize_row surface_row)).
  - reflexivity.
  - left. reflexivity.
  - reflexivity.
  - reflexivity.
Defined.

Lemma ranked_by_score_witness :
  rank [chart_titled "Temperature Over Time";
        chart_titled "Salinity vs Pressure Profile"] "Salinity"
  = [chart_titled "Salinity vs Pressure Profile";
     chart_titled "Temperature Over Time"]
  ∧ (score (chart_titled "Temperature Over Time") "salinity"
     <= score (chart_titled "Salinity vs Pressure Profile") "salinity")%Z.
Proof.
  split; [reflexivity |].
  exact (ranked_by_score
           [chart_titled "Temperature Over Time";
            chart_titled "Salinity vs Pressure Profile"] "Salinity" 0 1
           (chart_titled "Salinity vs Pressure Profile")
           (chart_titled "Temperature Over Time")
           eq_refl (le_n 1) eq_refl eq_refl).
Defined.

Lemma alias_priority_witness :
  get (normalize_row
         (<["temperature_c" := VNull]> (<["temperature" := VNum 4%float]> ∅)))
      "TEMP"
  = VNum 4%float.
Proof.
  exact (alias_priority
           (<["temperature_c" := VNull]> (<["temperature" := VNum 4%float]> ∅))
           "TEMP" eq_refl eq_refl).
Defined.

Lemma time_span_ordered_witness :
  ∃ k : KPISummary,
    kpis (H := plain_host) january_rows = Some k
    ∧ minTime k = Some (Some 1672876800000%Z)
    ∧ maxTime k = Some (Some 1674172800000%Z)
    ∧ (1672876800000 <= 1674172800000)%Z.
Proof.
  destruct (kpis (H := plain_host) january_rows) as [k |] eqn:E;
    [| vm_compute in E; discriminate E].
  assert (minTime k = Some (Some 1672876800000%Z)) as Hmin
    by (vm_compute in E; injection E as <-; reflexivity).
  assert (maxTime k = Some (Some 1674172800000%Z)) as Hmax
    by (vm_compute in E; injection E as <-; reflexivity).
  exists k. split; [done |]. split; [done |]. split; [done |].
  exact (proj1 (proj2 (proj2 (time_span_ordered (H := plain_host) january_rows k E))
                  _ _ Hmin Hmax)).
Defined.

Lemma average_ignores_invalid_witness :
  kpis (H := plain_host) (january_rows ++ surface_row :: []) ≫= avgSal
  = kpis (H := plain_host) (january_rows ++ []) ≫= avgSal.
Proof.
  exact (proj2 (average_ignores_invalid (H := plain_host) january_rows []
                  surface_row) eq_refl).
Defined.

Lemma table_filter_case_witness :
  table_rows (H := plain_host) ["platform_number"] "Incois"
    [float_row "INCOIS-2902275" 41%float; float_row "2902276" 7%float]
  = table_rows (H := plain_host) ["platform_number"] "INCOIS"
      [float_row "INCOIS-2902275" 41%float; float_row "2902276" 7%float].
Proof. apply table_filter_case. reflexivity. Defined.

Lemma table_filter_monotone_witness :
  sublist
    (List.filter (row_shown (H := plain_host) ["platform_number"] "Incois-29")
       [float_row "INCOIS-2902275" 41%float; float_row "2902276" 7%float])
    (List.filter (row_shown (H := plain_host) ["platform_number"] "cois")
       [float_row "INCOIS-2902275" 41%float; float_row "2902276" 7%float]).
Proof.
  exact (table_filter_monotone (H := plain_host) ["platform_number"]
           "In" "cois" "-29"
           [float_row "INCOIS-2902275" 41%float; float_row "2902276" 7%float]
           eq_refl).
Defined.

Lemma tracker_repoll_silent_witness :
  messages (fetchLatestFloats (H := plain_host) two_floats
              (fetchLatestFloats (H := plain_host) two_floats fresh_tracker))
  = messages (fetchLatestFloats (H := plain_host) two_floats fresh_tracker).
Proof.
  refine (proj1 (tracker_repoll_silent (H := plain_host) two_floats fresh_tracker
                   _ _)).
  - repeat constructor; cbn; intuition discriminate.
  - repeat constructor.
Defined.

Lemma tracker_first_poll_silent_witness :
  messages (fetchLatestFloats (H := plain_host) two_floats fresh_tracker) = [].
Proof.
  refine (tracker_first_poll_silent (H := plain_host) two_floats fresh_tracker _ _).
  - repeat constructor.
  - repeat constructor; cbn; intuition discriminate.
Defined.
